(** * GwasServiceFHE: the ledger contract and the dashboard's key/value client

    A shallow embedding of [contracts/GwasServiceFHE.sol] and of the two
    store operations of [frontend/web/src/App.tsx] that build and read the
    dataset index ([loadDatasets], [uploadDataset]), followed by the
    properties of the dataset lifecycle and of the indexed key/value
    persistence pattern. *)

From Stdlib Require Import ZArith String Ascii List Lia Bool Sorted Permutation.
From Stdlib Require Import Strings.Byte.
From stdpp Require Import base option list gmap strings pretty sorting.

Local Open Scope Z_scope.
Set Warnings "-register-all".

(** Solidity [bytes] and the byte strings of the record store. *)
Abbreviation bytes := (list byte).

(* ===================================================================== *)
(** * Part I: the ledger contract (GwasServiceFHE.sol)                    *)
(* ===================================================================== *)

Module Ledger.

(** ** Value types *)

Definition uint32_max : Z := 2 ^ 32 - 1.
Definition uint256_max : Z := 2 ^ 256 - 1.

(** [address] is a 160-bit integer, [euint32] a ciphertext handle
    ([type euint32 is bytes32] in the FHE library). *)
Abbreviation address := Z (only parsing).
Abbreviation euint32 := Z (only parsing).

Record EncryptedGenomeData := mkData {
  id : Z;
  encryptedGenotype : euint32;
  encryptedPhenotype : euint32;
  institution : address;
  timestamp : Z
}.

Record AnalysisResult := mkResult {
  encryptedPValue : euint32;
  encryptedOddsRatio : euint32;
  isRevealed : bool
}.

(** The value a Solidity mapping holds at a key never written. *)
Definition zeroData : EncryptedGenomeData := mkData 0 0 0 0 0.
Definition zeroResult : AnalysisResult := mkResult 0 0 false.

(** Contract storage. [encryptedGeneCounts] and [geneMarkers] are declared
    by the contract and touched by no function; they are left out. *)
Record State := mkState {
  datasetCount : Z;
  encryptedDatasets : gmap Z EncryptedGenomeData;
  analysisResults : gmap Z AnalysisResult;
  requestToDatasetId : gmap Z Z
}.

Definition init : State := mkState 0 ∅ ∅ ∅.

(** Mapping reads, with the zero value at absent keys. *)
Definition dataset_at (s : State) (k : Z) : EncryptedGenomeData :=
  default zeroData (encryptedDatasets s !! k).
Definition result_at (s : State) (k : Z) : AnalysisResult :=
  default zeroResult (analysisResults s !! k).
Definition request_at (s : State) (k : Z) : Z :=
  default 0 (requestToDatasetId s !! k).

(** The events the contract declares and emits itself. What the FHE
    library or the decryption oracle log during a call
    ([DecryptionFulfilled] on a verified callback, the oracle's own
    request event) is outside the source and is not part of a call's
    events here. *)
Inductive Event :=
| DatasetSubmitted (i : Z) (inst : address)
| AnalysisRequested (i : Z)
| ResultDecrypted (i : Z).

(** ** Transactions *)

(** How a call can fail: a [require] with its message, a compiler panic
    (0x11 arithmetic overflow, 0x32 index out of bounds), an [abi.decode]
    that rejects the data (the ways it can do so are not told apart), or a
    revert inside [FHE.checkSignatures]. *)
Inductive Failure :=
| Revert (reason : string)
| Panic (code : Z)
| AbiDecodeFailure
| InvalidSignatures.

(** What the chain and the decryption oracle supply to a call:
    [msg.sender], [block.timestamp], and the identifier that
    [FHE.requestDecryption] returns if the call issues a request. *)
Record Env := mkEnv {
  msg_sender : address;
  block_timestamp : Z;
  oracle_request_id : Z
}.

(** A transaction threads the storage and the events emitted so far; a
    failure carries no storage, which is the revert. *)
Definition Tx (A : Type) : Type :=
  State * list Event → Failure + A * (State * list Event).

Global Instance tx_ret : MRet Tx := λ A x w, inr (x, w).
Global Instance tx_bind : MBind Tx := λ A B f m w,
  match m w with
  | inl e => inl e
  | inr (x, w') => f x w'
  end.

Definition fail {A} (e : Failure) : Tx A := λ _, inl e.
Definition storage : Tx State := λ w, inr (w.1, w).
Definition store (f : State → State) : Tx unit := λ w, inr (tt, (f w.1, w.2)).
Definition emit (e : Event) : Tx unit := λ w, inr (tt, (w.1, w.2 ++ [e])).
Definition require (c : bool) (reason : string) : Tx unit :=
  if c then mret tt else fail (Revert reason).

(** Storage writes, one per assignment form used by the contract. *)
Definition set_datasetCount (n : Z) (s : State) : State :=
  mkState n (encryptedDatasets s) (analysisResults s) (requestToDatasetId s).
Definition set_dataset (k : Z) (d : EncryptedGenomeData) (s : State) : State :=
  mkState (datasetCount s) (<[k := d]> (encryptedDatasets s))
          (analysisResults s) (requestToDatasetId s).
Definition set_result (k : Z) (r : AnalysisResult) (s : State) : State :=
  mkState (datasetCount s) (encryptedDatasets s)
          (<[k := r]> (analysisResults s)) (requestToDatasetId s).
Definition set_request (k d : Z) (s : State) : State :=
  mkState (datasetCount s) (encryptedDatasets s) (analysisResults s)
          (<[k := d]> (requestToDatasetId s)).

(** Writes through the storage reference [AnalysisResult storage result]. *)
Definition set_encryptedPValue (k : Z) (v : euint32) (s : State) : State :=
  let r := result_at s k in
  set_result k (mkResult v (encryptedOddsRatio r) (isRevealed r)) s.
Definition set_encryptedOddsRatio (k : Z) (v : euint32) (s : State) : State :=
  let r := result_at s k in
  set_result k (mkResult (encryptedPValue r) v (isRevealed r)) s.
Definition set_isRevealed (k : Z) (b : bool) (s : State) : State :=
  let r := result_at s k in
  set_result k (mkResult (encryptedPValue r) (encryptedOddsRatio r) b) s.

(** ** Checked arithmetic (Solidity 0.8) *)

Definition checked_add (max a b : Z) : Tx Z :=
  if a + b <=? max then mret (a + b) else fail (Panic 17).
Definition checked_mul (max a b : Z) : Tx Z :=
  if a * b <=? max then mret (a * b) else fail (Panic 17).

(** ** [abi.decode(cleartexts, (uint32[]))] *)

(** Big-endian value of a byte string. *)
Definition be_value (bs : bytes) : Z :=
  fold_left (λ acc b, acc * 256 + Z.of_N (Byte.to_N b)) bs 0.

(** The 32-byte word at offset [off], if it lies within the data. *)
Definition word_at (data : bytes) (off : Z) : option Z :=
  if (0 <=? off) && (off + 32 <=? Z.of_nat (length data))
  then Some (be_value (take 32 (drop (Z.to_nat off) data)))
  else None.

(** [n] consecutive words from [off], each a valid [uint32]. *)
Fixpoint uint32_words (data : bytes) (off : Z) (n : nat) : option (list Z) :=
  match n with
  | O => Some []
  | S n' =>
      w ← word_at data off;
      if w <=? uint32_max
      then (ws ← uint32_words data (off + 32) n'; Some (w :: ws))
      else None
  end.

(** Head word: offset of the array; there: its length, then its elements. *)
Definition abi_decode_uint32_array (data : bytes) : option (list Z) :=
  off ← word_at data 0;
  len ← word_at data off;
  if off + 32 + 32 * len <=? Z.of_nat (length data)
  then uint32_words data (off + 32) (Z.to_nat len)
  else None.

Definition abi_decode (data : bytes) : Tx (list Z) :=
  match abi_decode_uint32_array data with
  | Some vs => mret vs
  | None => fail AbiDecodeFailure
  end.

(** [values[i]] on a memory array. *)
Definition index (values : list Z) (i : nat) : Tx Z :=
  match values !! i with
  | Some v => mret v
  | None => fail (Panic 50)
  end.

(** The encoder, used to build call data in examples. *)
Definition byte_of_Z (z : Z) : byte :=
  default x00 (Byte.of_N (Z.to_N (z mod 256))).
Fixpoint be_bytes (n : nat) (z : Z) : bytes :=
  match n with
  | O => []
  | S n' => be_bytes n' (z / 256) ++ [byte_of_Z z]
  end.
Definition abi_encode_uint32_array (vs : list Z) : bytes :=
  be_bytes 32 32 ++ be_bytes 32 (Z.of_nat (length vs))
  ++ concat (map (be_bytes 32) vs).

(** ** The FHE library *)

(** The two library calls whose result the contract depends on:
    [FHE.asEuint32] (trivial encryption of a clear value) and
    [FHE.checkSignatures] (true when the proof is accepted; the library
    reverts otherwise). *)
Class FHE := {
  asEuint32 : Z → euint32;
  checkSignatures : Z → bytes → bytes → bool
}.

Section Contract.
Context `{FHE}.

Definition FHE_checkSignatures (requestId : Z) (cleartexts proof : bytes) : Tx unit :=
  if checkSignatures requestId cleartexts proof then mret tt
  else fail InvalidSignatures.

(** [FHE.requestDecryption(ciphertexts, selector)]: the oracle's identifier
    for the new request. *)
Definition FHE_requestDecryption (env : Env) (ciphertexts : list Z) : Tx Z :=
  mret (oracle_request_id env).

(** ** The contract's functions *)

Definition onlyInstitution (env : Env) (datasetId : Z) : Tx unit :=
  s ← storage;
  require (msg_sender env =? institution (dataset_at s datasetId)) "Not authorized".

Definition submitEncryptedDataset (env : Env)
    (encryptedGenotype encryptedPhenotype : euint32) : Tx unit :=
  s ← storage;
  n ← checked_add uint256_max (datasetCount s) 1;
  store (set_datasetCount n);;
  let newId := n in
  store (set_dataset newId
           (mkData newId encryptedGenotype encryptedPhenotype
                   (msg_sender env) (block_timestamp env)));;
  store (set_result newId (mkResult (asEuint32 0) (asEuint32 0) false));;
  emit (DatasetSubmitted newId (msg_sender env)).

Definition requestGWASAnalysis (env : Env) (datasetId : Z) : Tx unit :=
  onlyInstitution env datasetId;;
  s ← storage;
  let data := dataset_at s datasetId in
  require (negb (isRevealed (result_at s datasetId))) "Already analyzed";;
  let ciphertexts := [encryptedGenotype data; encryptedPhenotype data] in
  reqId ← FHE_requestDecryption env ciphertexts;
  store (set_request reqId datasetId);;
  emit (AnalysisRequested datasetId).

Definition calculatePValue (genotype phenotype : Z) : Tx Z :=
  checked_add uint32_max genotype phenotype.

Definition calculateOddsRatio (genotype phenotype : Z) : Tx Z :=
  checked_mul uint32_max genotype phenotype.

Definition performAnalysis (env : Env) (requestId : Z)
    (cleartexts proof : bytes) : Tx unit :=
  s ← storage;
  let datasetId := request_at s requestId in
  require (negb (datasetId =? 0)) "Invalid request";;
  require (negb (isRevealed (result_at s datasetId))) "Already analyzed";;
  FHE_checkSignatures requestId cleartexts proof;;
  values ← abi_decode cleartexts;
  genotype ← index values 0;
  phenotype ← index values 1;
  pValue ← calculatePValue genotype phenotype;
  oddsRatio ← calculateOddsRatio genotype phenotype;
  store (set_encryptedPValue datasetId (asEuint32 pValue));;
  store (set_encryptedOddsRatio datasetId (asEuint32 oddsRatio));;
  store (set_isRevealed datasetId true);;
  emit (ResultDecrypted datasetId).

Definition getAnalysisResult (s : State) (datasetId : Z) : Z * Z * bool :=
  let r := result_at s datasetId in
  (encryptedPValue r, encryptedOddsRatio r, isRevealed r).

Definition requestResultDecryption (env : Env) (datasetId : Z) : Tx unit :=
  onlyInstitution env datasetId;;
  s ← storage;
  let result := result_at s datasetId in
  require (isRevealed result) "Analysis not complete";;
  let ciphertexts := [encryptedPValue result; encryptedOddsRatio result] in
  reqId ← FHE_requestDecryption env ciphertexts;
  store (set_request reqId datasetId).

Definition decryptFinalResults (env : Env) (requestId : Z)
    (cleartexts proof : bytes) : Tx unit :=
  s ← storage;
  let datasetId := request_at s requestId in
  require (negb (datasetId =? 0)) "Invalid request";;
  FHE_checkSignatures requestId cleartexts proof;;
  results ← abi_decode cleartexts;
  mret tt.

(** ** Calls, transactions and traces *)

Inductive Call :=
| SubmitEncryptedDataset (encryptedGenotype encryptedPhenotype : euint32)
| RequestGWASAnalysis (datasetId : Z)
| PerformAnalysis (requestId : Z) (cleartexts proof : bytes)
| RequestResultDecryption (datasetId : Z)
| DecryptFinalResults (requestId : Z) (cleartexts proof : bytes).

Definition dispatch (env : Env) (c : Call) : Tx unit :=
  match c with
  | SubmitEncryptedDataset g p => submitEncryptedDataset env g p
  | RequestGWASAnalysis d => requestGWASAnalysis env d
  | PerformAnalysis r c p => performAnalysis env r c p
  | RequestResultDecryption d => requestResultDecryption env d
  | DecryptFinalResults r c p => decryptFinalResults env r c p
  end.

(** One external call on storage [s]: the new storage and the events of
    the call, or the failure. *)
Definition call (env : Env) (c : Call) (s : State) : Failure + State * list Event :=
  match dispatch env c (s, []) with
  | inl e => inl e
  | inr (_, w) => inr w
  end.

(** The storage after the call; a reverted call leaves it as it was. *)
Definition transact (s : State) (ec : Env * Call) : State :=
  match call ec.1 ec.2 s with
  | inl _ => s
  | inr (s', _) => s'
  end.

Definition events_of (s : State) (ec : Env * Call) : list Event :=
  match call ec.1 ec.2 s with
  | inl _ => []
  | inr (_, evs) => evs
  end.

Definition run (s : State) (t : list (Env * Call)) : State :=
  fold_left transact t s.

Fixpoint run_events (s : State) (t : list (Env * Call)) : list Event :=
  match t with
  | [] => []
  | ec :: t' => events_of s ec ++ run_events (transact s ec) t'
  end.

(** The storage a successful [performAnalysis] leaves for dataset [d] and
    decoded values [g], [ph]: its three writes in order. *)
Definition analysed (d g ph : Z) (s : State) : State :=
  set_isRevealed d true
    (set_encryptedOddsRatio d (asEuint32 (g * ph))
       (set_encryptedPValue d (asEuint32 (g + ph)) s)).

(** Every dataset with an owner and every dataset a request resolves to has
    an identifier that was handed out. *)
Definition within_count (s : State) : Prop :=
  0 ≤ datasetCount s ∧
  (∀ k, institution (dataset_at s k) ≠ 0 → 1 ≤ k ≤ datasetCount s) ∧
  (∀ r, request_at s r ≠ 0 → 1 ≤ request_at s r ≤ datasetCount s).

(** Transactions are sent by accounts: never by the zero address. *)
Definition sent_by_accounts (t : list (Env * Call)) : Prop :=
  Forall (λ ec : Env * Call, msg_sender ec.1 ≠ 0) t.

(** Nothing is stored under an identifier that was not handed out. *)
Definition blank_outside_count (s : State) : Prop :=
  ∀ k, ¬ (1 ≤ k ≤ datasetCount s) →
       dataset_at s k = zeroData ∧ result_at s k = zeroResult.

(** ** Histories of a trace *)

(** The workflow stage a decryption request belongs to: the one whose
    request function registered it. *)
Inductive Stage := Analysis | Reveal.

Definition Stage_eqb (a b : Stage) : bool :=
  match a, b with
  | Analysis, Analysis | Reveal, Reveal => true
  | _, _ => false
  end.

(** The correlation entry [(stage, requestId, datasetId)] a call writes,
    when it is a request call and succeeds. *)
Definition registers (s : State) (ec : Env * Call) : list (Stage * Z * Z) :=
  match call ec.1 ec.2 s, ec.2 with
  | inr _, RequestGWASAnalysis d => [(Analysis, oracle_request_id ec.1, d)]
  | inr _, RequestResultDecryption d => [(Reveal, oracle_request_id ec.1, d)]
  | _, _ => []
  end.

(** The request a call completes, when it is a callback and succeeds. *)
Definition completes (s : State) (ec : Env * Call) : list (Stage * Z) :=
  match call ec.1 ec.2 s, ec.2 with
  | inr _, PerformAnalysis r _ _ => [(Analysis, r)]
  | inr _, DecryptFinalResults r _ _ => [(Reveal, r)]
  | _, _ => []
  end.

Fixpoint registered (s : State) (t : list (Env * Call)) : list (Stage * Z * Z) :=
  match t with
  | [] => []
  | ec :: t' => registers s ec ++ registered (transact s ec) t'
  end.

Fixpoint completed (s : State) (t : list (Env * Call)) : list (Stage * Z) :=
  match t with
  | [] => []
  | ec :: t' => completes s ec ++ completed (transact s ec) t'
  end.

(** The request identifiers registered along a trace, in order. *)
Definition registered_ids (s : State) (t : list (Env * Call)) : list Z :=
  map (λ e, e.1.2) (registered s t).

(** The requests of stage [st] registered for dataset [d] along the trace
    and not completed by its end. *)
Definition outstanding (st : Stage) (d : Z) (s : State) (t : list (Env * Call)) : list Z :=
  map (λ e, e.1.2)
    (List.filter (λ e, Stage_eqb e.1.1 st && (e.2 =? d)
                  && negb (existsb (λ c, Stage_eqb c.1 st && (c.2 =? e.1.2))
                                   (completed s t)))
            (registered s t)).

(** The identifiers announced by [DatasetSubmitted] events, in order. *)
Definition submitted_ids (evs : list Event) : list Z :=
  omap (λ e, match e with DatasetSubmitted i _ => Some i | _ => None end) evs.

(** The [submitEncryptedDataset] calls of a trace, in order: the call
    environment and the two handles submitted. *)
Definition submissions (t : list (Env * Call)) : list (Env * euint32 * euint32) :=
  omap (λ ec : Env * Call,
          match ec.2 with
          | SubmitEncryptedDataset g p => Some (ec.1, g, p)
          | _ => None
          end) t.

End Contract.

(** An FHE library for running the contract on examples: the handle of a
    trivially encrypted value is the value, and every proof is accepted. *)
Definition clear_fhe : FHE :=
  {| asEuint32 := λ v, v; checkSignatures := λ _ _ _, true |}.

(** Two institutions, the oracle's relayer, and a call environment with
    sender [a] in which the oracle would issue request identifier [rid]. *)
Definition alice : address := 1001.
Definition bob : address := 1002.
Definition relayer : address := 9000.
Definition from (a : address) (rid : Z) : Env := mkEnv a 1700000000 rid.

(** Alice submits a dataset and requests its analysis (request 1). *)
Definition requested_trace : list (Env * Call) :=
  [ (from alice 0, SubmitEncryptedDataset 501 502);
    (from alice 1, RequestGWASAnalysis 1) ].

(** The oracle answers request 1 with genotype 7 and phenotype 10. *)
Definition completion : Env * Call :=
  (from relayer 0, PerformAnalysis 1 (abi_encode_uint32_array [7; 10]) []).

(** After the completion, Alice requests the decryption of the result
    (request 2). *)
Definition analysed_trace : list (Env * Call) :=
  requested_trace ++ [completion; (from alice 2, RequestResultDecryption 1)].

(** Alice submits a dataset and requests its analysis twice before any
    callback lands (requests 1 and 2). *)
Definition double_request_trace : list (Env * Call) :=
  [ (from alice 0, SubmitEncryptedDataset 501 502);
    (from alice 1, RequestGWASAnalysis 1);
    (from alice 2, RequestGWASAnalysis 1) ].

(** After Alice's dataset went through its analysis, Bob submits one. *)
Definition two_submissions_trace : list (Env * Call) :=
  analysed_trace ++ [(from bob 0, SubmitEncryptedDataset 601 602)].

End Ledger.

(* ===================================================================== *)
(** * Part II: the dashboard's key/value client (App.tsx)                 *)
(* ===================================================================== *)

Module Client.

(** ** JavaScript values *)

(** What [JSON.parse] can produce, and [undefined] for a property that is
    not there. Numbers are integers: the client writes
    [Math.floor(Date.now() / 1000)], and fractional or out-of-range number
    literals in a stored record are outside the model. *)
Inductive value :=
| VUndefined
| VNull
| VBool (b : bool)
| VNum (n : Z)
| VStr (s : string)
| VArr (vs : list value)
| VObj (fields : list (string * value)).

Fixpoint assoc (k : string) (fields : list (string * value)) : value :=
  match fields with
  | [] => VUndefined
  | (k', v) :: fs => if String.eqb k k' then v else assoc k fs
  end.

(** [v.k], for the property names the client reads ([data], [timestamp],
    [institution], [studyType], [status], and [message] of a caught
    value): none of them is a property of a string, number, boolean or
    array. [None] is the TypeError. *)
Definition get_property (v : value) (k : string) : option value :=
  match v with
  | VUndefined | VNull => None
  | VObj fields => Some (assoc k fields)
  | _ => Some VUndefined
  end.

Definition truthy (v : value) : bool :=
  match v with
  | VUndefined | VNull | VBool false | VNum 0 | VStr EmptyString => false
  | _ => true
  end.

(** [a || b] *)
Definition js_or (a b : value) : value := if truthy a then a else b.

Fixpoint join (sep : string) (parts : list string) : string :=
  match parts with
  | [] => ""
  | [p] => p
  | p :: ps => p +:+ sep +:+ join sep ps
  end.

(** [String(v)], the conversion a template literal applies (numbers in
    plain decimal, as JavaScript prints integers below 10^21). *)
Fixpoint ToString (v : value) : string :=
  match v with
  | VUndefined => "undefined"
  | VNull => "null"
  | VBool true => "true"
  | VBool false => "false"
  | VNum n => pretty n
  | VStr s => s
  | VArr vs =>
      join "," (map (λ x, match x with
                          | VUndefined | VNull => ""%string
                          | _ => ToString x
                          end) vs)
  | VObj _ => "[object Object]"
  end.

Fixpoint chars (s : string) : list value :=
  match s with
  | EmptyString => []
  | String c s' => VStr (String c EmptyString) :: chars s'
  end.

(** The sequence [for (const x of v)] walks, a string being walked
    character by character; [None] is the TypeError raised for a value
    that is not iterable. *)
Definition iterate (v : value) : option (list value) :=
  match v with
  | VArr vs => Some vs
  | VStr s => Some (chars s)
  | _ => None
  end.

(** [keys.push(x)]: the array with [x] appended, or the message of the
    TypeError. Reading a property of [null] or [undefined] fails before
    anything is called; of the other values only an array has the
    method. The messages are worded as V8 words them. *)
Definition array_push (v x : value) : string + value :=
  match v with
  | VArr vs => inr (VArr (vs ++ [x]))
  | VNull => inl "Cannot read properties of null (reading 'push')"%string
  | VUndefined => inl "Cannot read properties of undefined (reading 'push')"%string
  | _ => inl "keys.push is not a function"%string
  end.

(** [hay.includes(needle)] on strings *)
Definition includes (hay needle : string) : bool :=
  match String.index 0 needle hay with
  | Some _ => true
  | None => false
  end.

(** [m.includes(needle)] on any value, or the message of the TypeError: a
    string looks for the substring and an array for an element; nothing
    else has the method, and [null] and [undefined] have no properties to
    read. *)
Definition includes_method (m : value) (needle : string) : string + bool :=
  match m with
  | VStr s => inr (includes s needle)
  | VArr vs =>
      inr (existsb (λ x, match x with
                         | VStr s => String.eqb s needle
                         | _ => false
                         end) vs)
  | VNull => inl "Cannot read properties of null (reading 'includes')"%string
  | VUndefined => inl "Cannot read properties of undefined (reading 'includes')"%string
  | _ => inl "e.message.includes is not a function"%string
  end.

(** [new Error(message)], as far as the client reads a caught value: by
    its [message]. *)
Definition js_error (message : string) : value :=
  VObj [("message"%string, VStr message)].

(** ** The runtime outside the source *)

(** Built-ins of the JavaScript runtime and of the ethers library, taken as
    they are: [None] stands for the exception the built-in throws
    ([SyntaxError] for [JSON.parse], an invalid byte sequence for
    [toUtf8String], a character outside Latin-1 for [btoa]) and for [NaN]
    in [StringToNumber]. [Array_sort cmp l] is [l.sort(cmp)] for a
    comparator whose results are read as integers, a [NaN] as [+0]: the
    order it produces is the engine's. *)
Class Runtime := {
  JSON_parse : string → option value;
  JSON_stringify : value → string;
  toUtf8String : bytes → option string;
  toUtf8Bytes : string → bytes;
  btoa : string → option string;
  StringToNumber : string → option Z;
  Array_sort : ∀ {A : Type}, (A → A → Z) → list A → list A
}.

(** *** What ECMAScript says of [Array.prototype.sort] *)

(** A stable insertion sort: [x] goes before the first element it does not
    compare greater than. *)
Fixpoint sort_insert {A} (cmp : A → A → Z) (x : A) (l : list A) : list A :=
  match l with
  | [] => [x]
  | y :: l' => if cmp x y <=? 0 then x :: y :: l' else y :: sort_insert cmp x l'
  end.
Definition stable_sort {A} (cmp : A → A → Z) (l : list A) : list A :=
  foldr (sort_insert cmp) [] l.

(** A consistent comparator on the elements of [l], as the standard
    defines it: comparing equal is reflexive, symmetric and transitive,
    and comparing less and comparing greater are transitive. *)
Definition consistent {A} (cmp : A → A → Z) (l : list A) : Prop :=
  ∀ a b c, a ∈ l → b ∈ l → c ∈ l →
    cmp a a = 0 ∧
    (cmp a b = 0 → cmp b a = 0) ∧
    (cmp a b = 0 → cmp b c = 0 → cmp a c = 0) ∧
    (cmp a b < 0 → cmp b c < 0 → cmp a c < 0) ∧
    (cmp a b > 0 → cmp b c > 0 → cmp a c > 0).

(** The two facts about the engine's sort the proofs rely on. It only
    rearranges the elements it is given, as every engine does, whatever
    the comparator. And for a consistent comparator the standard leaves
    no choice: the result is ordered by the comparator and, since
    ECMAScript 2019, elements that compare equal keep their order, which
    is the result of the stable sort. For a comparator that is not
    consistent (here: a record whose timestamp is not a number next to
    others whose timestamps differ) the order is left to the engine, and
    nothing is said of it. *)
Class StandardSort `{Runtime} : Prop := {
  sort_rearranges : ∀ {A} (cmp : A → A → Z) (l : list A), Array_sort cmp l ≡ₚ l;
  sort_consistent : ∀ {A} (cmp : A → A → Z) (l : list A),
    consistent cmp l → Array_sort cmp l = stable_sort cmp l
}.

(** ** Component state and environment *)

Record GwasData := mkGwasData {
  id : value;
  encryptedData : value;
  timestamp : value;
  institution : value;
  studyType : value;
  status : value
}.

Inductive TxState := pending | success | error.

Record TransactionStatus := mkStatus {
  visible : bool;
  tx_status : TxState;
  message : string
}.

Record NewDataset := mkNew {
  new_studyType : string;
  description : string;
  genomicData : string
}.

(** What an operation reads and cannot change: the React state it only
    reads ([provider], [account], [newDataset]), whether the contract
    handles are obtained, the outcome of the remote calls, the clock and
    the random suffix. [getData_error k] and [setData_error k] are the
    values a read of [k] and a write to [k] are rejected with, if they are
    rejected: whatever the provider or the wallet throws, which need not
    be an [Error] and need not carry a message. *)
Record Env := mkEnv {
  provider : bool;
  account : string;
  newDataset : NewDataset;
  readOnlyContract : bool;
  signerContract : bool;
  isAvailable : option bool;
  getData_error : string → option value;
  setData_error : string → option value;
  now_id : Z;
  now_timestamp : Z;
  random_suffix : string
}.

(** Whether the read of [k] is rejected. *)
Definition getData_fails (env : Env) (k : string) : bool :=
  match getData_error env k with
  | Some _ => true
  | None => false
  end.

(** What an operation can change: the record store behind
    [getData]/[setData], the console, the alerts, and the React state it
    sets. *)
Record World := mkWorld {
  chain : gmap string bytes;
  console : list string;
  alerts : list string;
  gwasDatasets : list GwasData;
  isRefreshing : bool;
  loading : bool;
  uploading : bool;
  transactionStatus : TransactionStatus
}.

Definition read (w : World) (k : string) : bytes := default [] (chain w !! k).

Definition with_chain (f : gmap string bytes → gmap string bytes) (w : World) : World :=
  mkWorld (f (chain w)) (console w) (alerts w) (gwasDatasets w)
          (isRefreshing w) (loading w) (uploading w) (transactionStatus w).
Definition with_console (f : list string → list string) (w : World) : World :=
  mkWorld (chain w) (f (console w)) (alerts w) (gwasDatasets w)
          (isRefreshing w) (loading w) (uploading w) (transactionStatus w).
Definition with_alerts (f : list string → list string) (w : World) : World :=
  mkWorld (chain w) (console w) (f (alerts w)) (gwasDatasets w)
          (isRefreshing w) (loading w) (uploading w) (transactionStatus w).
Definition with_gwasDatasets (l : list GwasData) (w : World) : World :=
  mkWorld (chain w) (console w) (alerts w) l
          (isRefreshing w) (loading w) (uploading w) (transactionStatus w).
Definition with_isRefreshing (b : bool) (w : World) : World :=
  mkWorld (chain w) (console w) (alerts w) (gwasDatasets w)
          b (loading w) (uploading w) (transactionStatus w).
Definition with_loading (b : bool) (w : World) : World :=
  mkWorld (chain w) (console w) (alerts w) (gwasDatasets w)
          (isRefreshing w) b (uploading w) (transactionStatus w).
Definition with_uploading (b : bool) (w : World) : World :=
  mkWorld (chain w) (console w) (alerts w) (gwasDatasets w)
          (isRefreshing w) (loading w) b (transactionStatus w).
Definition with_transactionStatus (t : TransactionStatus) (w : World) : World :=
  mkWorld (chain w) (console w) (alerts w) (gwasDatasets w)
          (isRefreshing w) (loading w) (uploading w) t.

(** ** Computations that change the world and may throw *)

(** The result is the value thrown, or the value returned; the world
    comes back either way, since nothing is rolled back. *)
Definition Js (A : Type) : Type := World → (value + A) * World.

Global Instance js_ret : MRet Js := λ A x w, (inr x, w).
Global Instance js_bind : MBind Js := λ A B f m w,
  match m w with
  | (inl e, w') => (inl e, w')
  | (inr x, w') => f x w'
  end.

Definition throw {A} (e : value) : Js A := λ w, (inl e, w).
(** The result of a built-in, or the error with message [e] it throws. *)
Definition lift {A} (e : string) (o : option A) : Js A :=
  match o with
  | Some x => mret x
  | None => throw (js_error e)
  end.
Definition or_throw {A} (r : string + A) : Js A :=
  match r with
  | inr x => mret x
  | inl e => throw (js_error e)
  end.
Definition try_catch {A} (m : Js A) (h : value → Js A) : Js A := λ w,
  match m w with
  | (inl e, w') => h e w'
  | (inr x, w') => (inr x, w')
  end.
Definition try_finally {A} (m : Js A) (f : Js unit) : Js A := λ w,
  match m w with
  | (r, w') =>
      match f w' with
      | (inl e, w'') => (inl e, w'')
      | (inr _, w'') => (r, w'')
      end
  end.
Definition update (f : World → World) : Js unit := λ w, (inr tt, f w).

Definition console_error (msg : string) : Js unit :=
  update (with_console (λ l, l ++ [msg])).
Definition alert (msg : string) : Js unit :=
  update (with_alerts (λ l, l ++ [msg])).
Definition setGwasDatasets (l : list GwasData) : Js unit := update (with_gwasDatasets l).
Definition setIsRefreshing (b : bool) : Js unit := update (with_isRefreshing b).
Definition setLoading (b : bool) : Js unit := update (with_loading b).
Definition setUploading (b : bool) : Js unit := update (with_uploading b).
Definition setTransactionStatus (t : TransactionStatus) : Js unit :=
  update (with_transactionStatus t).

(** [contract.getData(k)] and [contract.setData(k, v)]. *)
Definition getData (env : Env) (k : string) : Js bytes := λ w,
  match getData_error env k with
  | Some e => (inl e, w)
  | None => (inr (read w k), w)
  end.
Definition setData (env : Env) (k : string) (v : bytes) : Js unit := λ w,
  match setData_error env k with
  | Some e => (inl e, w)
  | None => (inr tt, with_chain (insert k v) w)
  end.

(** The body of a [for ... of] loop run over the items, threading the
    array the loop fills. *)
Fixpoint for_of {A} (items : list value) (body : value → A → Js A) (acc : A) : Js A :=
  match items with
  | [] => mret acc
  | x :: rest => acc' ← body x acc; for_of rest body acc'
  end.

Section Operations.
Context `{Runtime}.

(** [Number(v)]; [None] is [NaN]. *)
Definition ToNumber (v : value) : option Z :=
  match v with
  | VUndefined => None
  | VNull => Some 0
  | VBool b => Some (if b then 1 else 0)
  | VNum n => Some n
  | VStr s => StringToNumber s
  | VArr _ => StringToNumber (ToString v)
  | VObj _ => None
  end.

(** [(a, b) => b.timestamp - a.timestamp], with the [NaN] a comparator may
    return read as [+0], as [sort] does. *)
Definition by_timestamp_desc (a b : GwasData) : Z :=
  match ToNumber (timestamp b), ToNumber (timestamp a) with
  | Some tb, Some ta => tb - ta
  | _, _ => 0
  end.

Definition ethers_toUtf8String (b : bytes) : Js string :=
  lift "invalid codepoint" (toUtf8String b).
Definition JSON_parse_ (s : string) : Js value :=
  lift "Unexpected token in JSON" (JSON_parse s).

(** ** [loadDatasets] *)

(** The body of the loop over the keys: what one key adds to [list]. *)
Definition load_record (env : Env) (key : value)
    (list : Datatypes.list GwasData) : Js (Datatypes.list GwasData) :=
  try_catch
    (datasetBytes ← getData env ("gwas_" +:+ ToString key);
     if (0 <? length datasetBytes)%nat
     then try_catch
            (s ← ethers_toUtf8String datasetBytes;
             dataset ← JSON_parse_ s;
             data ← lift "Cannot read properties" (get_property dataset "data");
             ts ← lift "Cannot read properties" (get_property dataset "timestamp");
             inst ← lift "Cannot read properties" (get_property dataset "institution");
             study ← lift "Cannot read properties" (get_property dataset "studyType");
             st ← lift "Cannot read properties" (get_property dataset "status");
             mret (list ++ [mkGwasData key data ts inst study
                              (js_or st (VStr "pending"))]))
            (λ e, console_error ("Error parsing dataset for " +:+ ToString key +:+ ":");;
                  mret list)
     else mret list)
    (λ e, console_error ("Error loading dataset " +:+ ToString key +:+ ":");;
          mret list).

Definition loadDatasets (env : Env) : Js unit :=
  setIsRefreshing true;;
  try_finally
    (try_catch
       (if negb (readOnlyContract env) then mret tt else
        available ← lift "call failed" (isAvailable env);
        if negb available then console_error "Contract is not available" else
        keysBytes ← getData env "gwas_keys";
        keys ← (if (0 <? length keysBytes)%nat
                then try_catch
                       (s ← ethers_toUtf8String keysBytes; JSON_parse_ s)
                       (λ e, console_error "Error parsing dataset keys:";;
                             mret (VArr []))
                else mret (VArr []));
        items ← lift "keys is not iterable" (iterate keys);
        list ← for_of items (load_record env) [];
        setGwasDatasets (Array_sort by_timestamp_desc list))
       (λ e, console_error "Error loading datasets:"))
    (setIsRefreshing false;; setLoading false).

(** ** [uploadDataset] *)

Definition newDataset_value (d : NewDataset) : value :=
  VObj [("studyType"%string, VStr (new_studyType d));
        ("description"%string, VStr (description d));
        ("genomicData"%string, VStr (genomicData d))].

(** The identifier [`${Date.now()}-${Math.random().toString(36).substring(2, 9)}`]. *)
Definition datasetId_of (env : Env) : string :=
  pretty (now_id env) +:+ "-" +:+ random_suffix env.

Definition datasetData_of (env : Env) (encrypted : string) : value :=
  VObj [("data"%string, VStr encrypted);
        ("timestamp"%string, VNum (now_timestamp env / 1000));
        ("institution"%string, VStr (account env));
        ("studyType"%string, VStr (new_studyType (newDataset env)));
        ("status"%string, VStr "pending")].

(** The [catch] block of [uploadDataset]. It reads [e.message] and calls
    [includes] on it before anything else, so a caught value without a
    string (or array) as [message] makes the block itself throw, and the
    status is then not set. *)
Definition upload_failed (e : value) : Js unit :=
  message ← lift "Cannot read properties" (get_property e "message");
  rejected ← or_throw (includes_method message "user rejected transaction");
  let errorMessage :=
    if (rejected : bool)
    then "Transaction rejected by user"%string
    else "Upload failed: " +:+ ToString (js_or message (VStr "Unknown error")) in
  setTransactionStatus (mkStatus true error errorMessage).

(** The [setTimeout] callbacks, which hide the status and reset the form
    some seconds later, run after the operation and are not part of it. *)
Definition uploadDataset (env : Env) : Js unit :=
  if negb (provider env) then alert "Please connect wallet first" else
  setUploading true;;
  setTransactionStatus (mkStatus true pending "Encrypting genomic data with FHE...");;
  try_finally
    (try_catch
       (b64 ← lift "Invalid character" (btoa (JSON_stringify (newDataset_value (newDataset env))));
        let encrypted := "FHE-GWAS-" +:+ b64 in
        (if negb (signerContract env)
         then throw (js_error "Failed to get contract with signer") else mret tt);;
        let datasetId := datasetId_of env in
        let datasetData := datasetData_of env encrypted in
        setData env ("gwas_" +:+ datasetId) (toUtf8Bytes (JSON_stringify datasetData));;
        keysBytes ← getData env "gwas_keys";
        keys ← (if (0 <? length keysBytes)%nat
                then try_catch
                       (s ← ethers_toUtf8String keysBytes; JSON_parse_ s)
                       (λ e, console_error "Error parsing keys:";;
                             mret (VArr []))
                else mret (VArr []));
        keys' ← or_throw (array_push keys (VStr datasetId));
        setData env "gwas_keys" (toUtf8Bytes (JSON_stringify keys'));;
        setTransactionStatus (mkStatus true success "Encrypted genomic data submitted securely!");;
        loadDatasets env)
       upload_failed)
    (setUploading false).

(** The world after an operation. *)
Definition exec (m : Js unit) (w : World) : World := (m w).2.

(** ** The listing, as the specification words it *)

(** The stored text read back as a value; [None] when the bytes are not
    text or the text is not JSON. *)
Definition decode (b : bytes) : option value := toUtf8String b ≫= JSON_parse.

(** The index: an empty value is the empty list of keys. *)
Definition index_value (b : bytes) : option value :=
  if (0 <? length b)%nat then decode b else Some (VArr []).

(** The keys an operation works with: those of the index, or none when the
    index does not parse. *)
Definition keys_of (b : bytes) : value := default (VArr []) (index_value b).

(** The record shown for a key: there is none when the fetch fails, when
    nothing is stored, or when what is stored does not parse to a value
    with properties. *)
Definition record_of (env : Env) (w : World) (key : value) : option GwasData :=
  let k := "gwas_" +:+ ToString key in
  if getData_fails env k then None
  else if (0 <? length (read w k))%nat then
    dataset ← decode (read w k);
    data ← get_property dataset "data";
    ts ← get_property dataset "timestamp";
    inst ← get_property dataset "institution";
    study ← get_property dataset "studyType";
    st ← get_property dataset "status";
    Some (mkGwasData key data ts inst study (js_or st (VStr "pending")))
  else None.

(** What the console receives for a key. *)
Definition record_log (env : Env) (w : World) (key : value) : list string :=
  let k := "gwas_" +:+ ToString key in
  if getData_fails env k then ["Error loading dataset " +:+ ToString key +:+ ":"]
  else if (0 <? length (read w k))%nat then
    match record_of env w key with
    | Some _ => []
    | None => ["Error parsing dataset for " +:+ ToString key +:+ ":"]
    end
  else [].

(** The records of the keys that have one, in the order of the keys. *)
Definition surviving (env : Env) (w : World) (items : list value) : list GwasData :=
  omap (record_of env w) items.

(** [a] may stand before [b] in a list sorted by timestamp, newest first. *)
Definition not_older (a b : GwasData) : Prop :=
  ∃ x y, timestamp a = VNum x ∧ timestamp b = VNum y ∧ y ≤ x.

Definition numeric_timestamp (d : GwasData) : Prop := ∃ n, timestamp d = VNum n.


(** A thrown value whose [message] is a string, as an [Error] has. *)
Definition carries_message (e : value) : Prop :=
  ∃ m, get_property e "message" = Some (VStr m).

(** A value the store gives back as it was written. *)
Definition reads_back (v : value) : Prop :=
  (0 < length (toUtf8Bytes (JSON_stringify v)))%nat ∧
  decode (toUtf8Bytes (JSON_stringify v)) = Some v.

(** The conditions under which a listing gets as far as the index: the
    read-only contract is obtained, reports itself available, and the
    fetch of the index succeeds. *)
Definition can_list (env : Env) : Prop :=
  readOnlyContract env = true ∧ isAvailable env = Some true ∧
  getData_fails env "gwas_keys" = false.

(** The conditions under which the two writes of an upload are sent and
    accepted. *)
Definition can_upload (env : Env) (b64 : string) : Prop :=
  provider env = true ∧
  btoa (JSON_stringify (newDataset_value (newDataset env))) = Some b64 ∧
  signerContract env = true ∧
  setData_error env ("gwas_" +:+ datasetId_of env) = None ∧
  getData_fails env "gwas_keys" = false ∧
  setData_error env "gwas_keys" = None.

Definition set_console (c : list string) (w : World) : World :=
  with_console (λ _, c) w.

(** The console line for an index that does not parse: the one of
    [loadDatasets] and the one of [uploadDataset]. *)
Definition index_log (b : bytes) : list string :=
  match index_value b with
  | Some _ => []
  | None => ["Error parsing dataset keys:"%string]
  end.

Definition upload_log (b : bytes) : list string :=
  match index_value b with
  | Some _ => []
  | None => ["Error parsing keys:"%string]
  end.

(** The world of an upload after its two writes, when the data encodes
    to [b64] and the keys of the index were [ks]: the record is stored,
    the index holds [ks] and the new identifier, and the status reads
    success. *)
Definition uploaded (env : Env) (w : World) (b64 : string) (ks : list value) : World :=
  mkWorld
    (<["gwas_keys"%string :=
         toUtf8Bytes (JSON_stringify (VArr (ks ++ [VStr (datasetId_of env)])))]>
       (<["gwas_" +:+ datasetId_of env :=
            toUtf8Bytes (JSON_stringify (datasetData_of env ("FHE-GWAS-" +:+ b64)))]>
          (chain w)))
    (console w ++ upload_log (read w "gwas_keys"))
    (alerts w) (gwasDatasets w) (isRefreshing w) (loading w) true
    (mkStatus true success "Encrypted genomic data submitted securely!").

(** What a listing shows, when it gets as far as showing something: the
    records of the keys of the index, as the engine's sort arranges
    them. *)
Definition listed (env : Env) (w : World) : option (list GwasData) :=
  if readOnlyContract env
  then match isAvailable env with
       | Some true =>
           if getData_fails env "gwas_keys" then None
           else items ← iterate (keys_of (read w "gwas_keys"));
                Some (Array_sort by_timestamp_desc (surviving env w items))
       | _ => None
       end
  else None.

(** The console lines of a listing. *)
Definition load_log (env : Env) (w : World) : list string :=
  if readOnlyContract env
  then match isAvailable env with
       | None => ["Error loading datasets:"%string]
       | Some false => ["Contract is not available"%string]
       | Some true =>
           if getData_fails env "gwas_keys" then ["Error loading datasets:"%string]
           else index_log (read w "gwas_keys") ++
                match iterate (keys_of (read w "gwas_keys")) with
                | Some items => concat (map (record_log env w) items)
                | None => ["Error loading datasets:"%string]
                end
       end
  else [].

(** ** [processDataset] *)

(** The properties [{...v}] copies: those of an object, the indexed
    elements of an array or characters of a string, and none of any other
    value. *)
Fixpoint indexed_from (i : nat) (vs : list value) : list (string * value) :=
  match vs with
  | [] => []
  | v :: vs' => (pretty (Z.of_nat i), v) :: indexed_from (S i) vs'
  end.

Definition spread (v : value) : list (string * value) :=
  match v with
  | VObj fields => fields
  | VArr vs => indexed_from 0 vs
  | VStr s => indexed_from 0 (chars s)
  | _ => []
  end.

Fixpoint has_property (k : string) (fields : list (string * value)) : bool :=
  match fields with
  | [] => false
  | (k', _) :: fs => String.eqb k k' || has_property k fs
  end.

(** [{...fields, k: x}]: an existing property keeps its place and takes
    the new value, a new one goes last. *)
Definition set_property (k : string) (x : value) (fields : list (string * value))
    : list (string * value) :=
  if has_property k fields
  then map (λ kv : string * value, if String.eqb k kv.1 then (kv.1, x) else kv) fields
  else fields ++ [(k, x)].

(** The [catch] block of [processDataset]; [e.message] is read, and
    nothing is called on it. *)
Definition process_failed (e : value) : Js unit :=
  message ← lift "Cannot read properties" (get_property e "message");
  setTransactionStatus
    (mkStatus true error
       ("Analysis failed: " +:+ ToString (js_or message (VStr "Unknown error")))).

(** The record rewritten with status [processed]. The three seconds the
    operation first waits are not modelled. *)
Definition processDataset (env : Env) (datasetId : value) : Js unit :=
  if negb (provider env) then alert "Please connect wallet first" else
  setTransactionStatus
    (mkStatus true pending "Processing encrypted genomic data with FHE...");;
  try_catch
    ((if negb (signerContract env)
      then throw (js_error "Failed to get contract with signer") else mret tt);;
     datasetBytes ← getData env ("gwas_" +:+ ToString datasetId);
     (if (length datasetBytes =? 0)%nat
      then throw (js_error "Dataset not found") else mret tt);;
     s ← ethers_toUtf8String datasetBytes;
     datasetData ← JSON_parse_ s;
     let updatedDataset :=
       VObj (set_property "status" (VStr "processed") (spread datasetData)) in
     setData env ("gwas_" +:+ ToString datasetId)
             (toUtf8Bytes (JSON_stringify updatedDataset));;
     setTransactionStatus
       (mkStatus true success "FHE GWAS analysis completed successfully!");;
     loadDatasets env)
    process_failed.

(** ** The dashboard's counters *)

(** [d.status === s] *)
Definition has_status (s : string) (d : GwasData) : bool :=
  match status d with
  | VStr s' => String.eqb s' s
  | _ => false
  end.

Definition processedCount (l : list GwasData) : nat :=
  length (List.filter (has_status "processed") l).
Definition pendingCount (l : list GwasData) : nat :=
  length (List.filter (has_status "pending") l).
Definition errorCount (l : list GwasData) : nat :=
  length (List.filter (has_status "error") l).

End Operations.

(** ** The search filter *)

(** [String.prototype.toLowerCase], taken as it is. *)
Class Casing := { toLowerCase : string → string }.

Section Search.
Context `{Casing}.

(** [v.toLowerCase()]: only a string has the method; [None] is the
    TypeError. *)
Definition lower (v : value) : option string :=
  match v with
  | VStr s => Some (toLowerCase s)
  | _ => None
  end.

(** The predicate of the filter: the study type is looked at first, the
    institution only if the study type does not match. *)
Definition matches_search (searchQuery : string) (dataset : GwasData) : option bool :=
  study ← lower (studyType dataset);
  if includes study (toLowerCase searchQuery) then Some true
  else inst ← lower (institution dataset);
       Some (includes inst (toLowerCase searchQuery)).

(** [l.filter(p)] for a predicate that may throw: the first throw ends
    it. *)
Fixpoint filter_or_throw {A} (p : A → option bool) (l : list A) : option (list A) :=
  match l with
  | [] => Some []
  | x :: l' =>
      match p x with
      | None => None
      | Some b =>
          rest ← filter_or_throw p l';
          Some (if b then x :: rest else rest)
      end
  end.

Definition filteredDatasets (searchQuery : string) (gwasDatasets : list GwasData)
    : option (list GwasData) :=
  filter_or_throw (matches_search searchQuery) gwasDatasets.

End Search.
End Client.

(* ===================================================================== *)
(** * A runtime to run the client on examples                             *)
(* ===================================================================== *)

(** An instance of [Client.Runtime] for ASCII text and integer numbers:
    enough of [JSON.stringify]/[JSON.parse], of the UTF-8 conversions and
    of [btoa] to execute [uploadDataset] and [loadDatasets] on concrete
    stores, with the stable sort for [Array.prototype.sort]. The theorems
    about the client hold for every runtime; this one only serves the
    examples. *)
Module MiniRuntime.
Import Client.

Definition quote : ascii := "034"%char.
Definition backslash : ascii := "\"%char.

Definition is_space (c : ascii) : bool :=
  (c =? " ")%char || (c =? "010")%char || (c =? "013")%char || (c =? "009")%char.

Definition digit_of (c : ascii) : option Z :=
  let n := Z.of_nat (nat_of_ascii c) in
  if (48 <=? n) && (n <=? 57) then Some (n - 48) else None.

Definition hex_of (c : ascii) : option Z :=
  let n := Z.of_nat (nat_of_ascii c) in
  if (48 <=? n) && (n <=? 57) then Some (n - 48)
  else if (97 <=? n) && (n <=? 102) then Some (n - 87)
  else if (65 <=? n) && (n <=? 70) then Some (n - 55)
  else None.

Definition hex_char (n : Z) : ascii :=
  ascii_of_nat (Z.to_nat (if n <? 10 then 48 + n else 87 + n)).

Definition str (c : ascii) : string := String c EmptyString.

(** *** Writing *)

Definition escape_char (c : ascii) : string :=
  if (c =? quote)%char then str backslash +:+ str quote
  else if (c =? backslash)%char then str backslash +:+ str backslash
  else if (c =? "010")%char then str backslash +:+ "n"
  else if (c =? "013")%char then str backslash +:+ "r"
  else if (c =? "009")%char then str backslash +:+ "t"
  else let n := Z.of_nat (nat_of_ascii c) in
       if n <? 32
       then str backslash +:+ "u00" +:+ str (hex_char (n / 16)) +:+ str (hex_char (n mod 16))
       else str c.

Fixpoint escape (s : string) : string :=
  match s with
  | EmptyString => ""
  | String c s' => escape_char c +:+ escape s'
  end.

Definition quoted (s : string) : string := str quote +:+ escape s +:+ str quote.

(** An [undefined] array element is written [null]; an [undefined] object
    property is not written. *)
Fixpoint stringify (v : value) : string :=
  match v with
  | VUndefined | VNull => "null"
  | VBool true => "true"
  | VBool false => "false"
  | VNum n => pretty n
  | VStr s => quoted s
  | VArr vs => "[" +:+ join "," (map stringify vs) +:+ "]"
  | VObj fields =>
      "{" +:+ join ","
        (omap (λ '(k, v),
                 match v with
                 | VUndefined => None
                 | _ => Some (quoted k +:+ ":" +:+ stringify v)
                 end) fields) +:+ "}"
  end.

(** *** Reading *)

Fixpoint skip_space (s : string) : string :=
  match s with
  | String c s' => if is_space c then skip_space s' else s
  | EmptyString => s
  end.

Fixpoint drop_chars (n : nat) (s : string) : string :=
  match n, s with
  | S n', String _ s' => drop_chars n' s'
  | _, _ => s
  end.

Fixpoint read_digits (acc : Z) (s : string) : Z * string :=
  match s with
  | String c s' =>
      match digit_of c with
      | Some d => read_digits (10 * acc + d) s'
      | None => (acc, s)
      end
  | EmptyString => (acc, s)
  end.

Definition starts_with_digit (s : string) : bool :=
  match s with
  | String c _ => bool_decide (is_Some (digit_of c))
  | EmptyString => false
  end.

(** The characters after an opening quote, up to the closing one. *)
Fixpoint read_string (s : string) : option (string * string) :=
  match s with
  | EmptyString => None
  | String c s' =>
      if (c =? quote)%char then Some (EmptyString, s')
      else if (c =? backslash)%char then
        match s' with
        | String "u" (String h1 (String h2 (String h3 (String h4 s'')))) =>
            a ← hex_of h1; b ← hex_of h2; x ← hex_of h3; y ← hex_of h4;
            if (a =? 0) && (b =? 0) && (x <? 8)
            then r ← read_string s'';
                 Some (String (ascii_of_nat (Z.to_nat (16 * x + y))) r.1, r.2)
            else None
        | String e s'' =>
            c' ← (if (e =? quote)%char then Some quote
                  else if (e =? backslash)%char then Some backslash
                  else if (e =? "/")%char then Some "/"%char
                  else if (e =? "n")%char then Some "010"%char
                  else if (e =? "r")%char then Some "013"%char
                  else if (e =? "t")%char then Some "009"%char
                  else if (e =? "b")%char then Some "008"%char
                  else if (e =? "f")%char then Some "012"%char
                  else None);
            r ← read_string s'';
            Some (String c' r.1, r.2)
        | EmptyString => None
        end
      else if Z.of_nat (nat_of_ascii c) <? 32 then None
      else r ← read_string s'; Some (String c r.1, r.2)
  end.

(** A later member with the same name replaces an earlier one. *)
Definition set_member (k : string) (v : value) (fields : list (string * value))
    : list (string * value) :=
  List.filter (λ kv, negb (String.eqb kv.1 k)) fields ++ [(k, v)].

Fixpoint read_value (fuel : nat) (s : string) : option (value * string) :=
  match fuel with
  | O => None
  | S fuel' =>
      let s := skip_space s in
      if String.prefix "null" s then Some (VNull, drop_chars 4 s)
      else if String.prefix "true" s then Some (VBool true, drop_chars 4 s)
      else if String.prefix "false" s then Some (VBool false, drop_chars 5 s)
      else match s with
           | String "[" s1 =>
               match skip_space s1 with
               | String "]" s2 => Some (VArr [], s2)
               | _ => read_elements fuel' s1 []
               end
           | String "{" s1 =>
               match skip_space s1 with
               | String "}" s2 => Some (VObj [], s2)
               | _ => read_members fuel' s1 []
               end
           | String "-" s1 =>
               if starts_with_digit s1
               then let '(n, s2) := read_digits 0 s1 in Some (VNum (- n), s2)
               else None
           | String c s1 =>
               if (c =? quote)%char
               then r ← read_string s1; Some (VStr r.1, r.2)
               else if starts_with_digit s
               then let '(n, s2) := read_digits 0 s in Some (VNum n, s2)
               else None
           | EmptyString => None
           end
  end
with read_elements (fuel : nat) (s : string) (acc : list value)
    : option (value * string) :=
  match fuel with
  | O => None
  | S fuel' =>
      r ← read_value fuel' s;
      match skip_space r.2 with
      | String "," s' => read_elements fuel' s' (acc ++ [r.1])
      | String "]" s' => Some (VArr (acc ++ [r.1]), s')
      | _ => None
      end
  end
with read_members (fuel : nat) (s : string) (acc : list (string * value))
    : option (value * string) :=
  match fuel with
  | O => None
  | S fuel' =>
      match skip_space s with
      | String c s1 =>
          if (c =? quote)%char then
            k ← read_string s1;
            match skip_space k.2 with
            | String ":" s2 =>
                r ← read_value fuel' s2;
                match skip_space r.2 with
                | String "," s' => read_members fuel' s' (set_member k.1 r.1 acc)
                | String "}" s' => Some (VObj (set_member k.1 r.1 acc), s')
                | _ => None
                end
            | _ => None
            end
          else None
      | EmptyString => None
      end
  end.

Definition parse (s : string) : option value :=
  r ← read_value (2 * String.length s + 2) s;
  match skip_space r.2 with
  | EmptyString => Some r.1
  | _ => None
  end.

(** *** Bytes, base 64, numbers *)

Definition utf8_bytes (s : string) : bytes := list_byte_of_string s.

Definition utf8_string (b : bytes) : option string :=
  if forallb (λ x, (Byte.to_N x <? 128)%N) b
  then Some (string_of_list_byte b) else None.

Definition base64_alphabet : list ascii :=
  list_ascii_of_string
    "ABCDEFGHIJKLMNOPQRSTUVWXYZabcdefghijklmnopqrstuvwxyz0123456789+/".

Definition base64_char (n : Z) : ascii :=
  nth (Z.to_nat n) base64_alphabet "="%char.

Fixpoint base64 (l : list Z) : list ascii :=
  match l with
  | a :: b :: c :: rest =>
      let n := a * 65536 + b * 256 + c in
      base64_char (n / 262144) :: base64_char (n / 4096 mod 64)
      :: base64_char (n / 64 mod 64) :: base64_char (n mod 64) :: base64 rest
  | [a; b] =>
      let n := a * 65536 + b * 256 in
      [base64_char (n / 262144); base64_char (n / 4096 mod 64);
       base64_char (n / 64 mod 64); "="%char]
  | [a] =>
      let n := a * 65536 in
      [base64_char (n / 262144); base64_char (n / 4096 mod 64); "="%char; "="%char]
  | [] => []
  end.

Definition to_base64 (s : string) : option string :=
  Some (string_of_list_ascii
          (base64 (map (λ c, Z.of_nat (nat_of_ascii c)) (list_ascii_of_string s)))).

(** Decimal integers, with surrounding blanks; the empty string is 0. *)
Definition string_to_number (s : string) : option Z :=
  let s := skip_space s in
  match s with
  | EmptyString => Some 0
  | String "-" s1 =>
      if starts_with_digit s1
      then let '(n, rest) := read_digits 0 s1 in
           match skip_space rest with EmptyString => Some (- n) | _ => None end
      else None
  | _ =>
      if starts_with_digit s
      then let '(n, rest) := read_digits 0 s in
           match skip_space rest with EmptyString => Some n | _ => None end
      else None
  end.

Definition runtime_sorting
    (sort : ∀ A : Type, (A → A → Z) → list A → list A) : Runtime :=
  {| JSON_parse := parse;
     JSON_stringify := stringify;
     toUtf8String := utf8_string;
     toUtf8Bytes := utf8_bytes;
     btoa := to_base64;
     StringToNumber := string_to_number;
     Array_sort := sort |}.

Definition runtime : Runtime := runtime_sorting (@stable_sort).

(** *** Example stores *)

(** A connected institution whose calls all go through. *)
Definition lab : Env :=
  mkEnv true "0xA11CE" (mkNew "Oncology" "cohort 7" "chr1 12345 A G")
        true true (Some true) (λ _, None) (λ _, None)
        1700000000123 1700000000456 "k3j9x2a".

(** What [btoa] makes of the lab's form. *)
Definition lab_payload : string :=
  default "" (to_base64 (stringify (newDataset_value (newDataset lab)))).

Definition fresh_world : World :=
  mkWorld ∅ [] [] [] false true false (mkStatus false pending "").

(** The world with the text of [v] stored under [k]. *)
Definition stored (k : string) (v : value) (w : World) : World :=
  with_chain (insert k (utf8_bytes (stringify v))) w.

(** Three indexed records; the middle one parses and has no timestamp. *)
Definition undated_store : World :=
  stored "gwas_keys" (VArr [VStr "a"; VStr "b"; VStr "c"])
    (stored "gwas_a" (VObj [("timestamp"%string, VNum 1)])
       (stored "gwas_b" (VObj [])
          (stored "gwas_c" (VObj [("timestamp"%string, VNum 3)]) fresh_world))).

(** Three indexed records; the middle one does not parse. *)
Definition damaged_store : World :=
  stored "gwas_keys" (VArr [VStr "a"; VStr "x"; VStr "c"])
    (stored "gwas_a" (VObj [("timestamp"%string, VNum 1)])
       (with_chain (insert "gwas_x"%string (utf8_bytes "{oops"))
          (stored "gwas_c" (VObj [("timestamp"%string, VNum 3)]) fresh_world))).

(** One stored record, and an index that is not JSON. *)
Definition corrupt_index : World :=
  with_chain (insert "gwas_keys"%string (utf8_bytes "[oops"))
    (stored "gwas_old" (VObj [("timestamp"%string, VNum 5)]) fresh_world).

(** The lab with a wallet that rejects the write of the index. *)
Definition lab_rejected : Env :=
  mkEnv true "0xA11CE" (mkNew "Oncology" "cohort 7" "chr1 12345 A G")
        true true (Some true) (λ _, None)
        (λ k, if String.eqb k "gwas_keys"
              then Some (js_error "user rejected transaction") else None)
        1700000000123 1700000000456 "k3j9x2a".

(** The lab with a wallet that rejects the write of the index with an
    object that has a code and no message. *)
Definition lab_refused : Env :=
  mkEnv true "0xA11CE" (mkNew "Oncology" "cohort 7" "chr1 12345 A G")
        true true (Some true) (λ _, None)
        (λ k, if String.eqb k "gwas_keys"
              then Some (VObj [("code"%string, VNum 4001)]) else None)
        1700000000123 1700000000456 "k3j9x2a".


(** Stores whose index is JSON but not a list of keys. *)
Definition number_index : World := stored "gwas_keys" (VNum 5) fresh_world.
Definition null_index : World := stored "gwas_keys" VNull fresh_world.
Definition object_index : World := stored "gwas_keys" (VObj []) fresh_world.

(** Lower case for ASCII letters. *)
Definition lower_char (c : ascii) : ascii :=
  let n := nat_of_ascii c in
  if (65 <=? n)%nat && (n <=? 90)%nat then ascii_of_nat (n + 32) else c.

Fixpoint lowercase (s : string) : string :=
  match s with
  | EmptyString => EmptyString
  | String c s' => String (lower_char c) (lowercase s')
  end.

Definition ascii_casing : Casing := {| toLowerCase := lowercase |}.

End MiniRuntime.

(* ===================================================================== *)
(** * Part III: properties of the ledger                                  *)
(* ===================================================================== *)

Module LedgerProofs.
Import Ledger.

Section LedgerFacts.
Context `{FHE}.

Ltac tx_unfold :=
  unfold call, dispatch, submitEncryptedDataset, requestGWASAnalysis,
    performAnalysis, requestResultDecryption, decryptFinalResults,
    onlyInstitution, calculatePValue, calculateOddsRatio, checked_add,
    checked_mul, FHE_checkSignatures, FHE_requestDecryption, abi_decode,
    index, require, storage, store, emit, fail,
    mbind, tx_bind, mret, tx_ret in *; simpl in *.

(** Case analysis on the next test of a call, on the decoded cleartext (as
    far as its first two values), and on whether the cleartext decodes. *)
Ltac case_test :=
  match goal with
  | |- context [if ?b then _ else _] =>
      match type of b with bool => destruct b end
  end.
Ltac case_values :=
  match goal with
  | |- context [match ?o with Some _ => _ | None => _ end] =>
      destruct o as [[|? [|? ?]]|]
  end.
Ltac case_decoded :=
  match goal with
  | |- context [match ?o with Some _ => _ | None => _ end] => destruct o
  end.

(** *** What each call returns *)

Lemma call_submit env g p s :
  call env (SubmitEncryptedDataset g p) s =
  if datasetCount s + 1 <=? uint256_max
  then let n := datasetCount s + 1 in
       inr (set_result n (mkResult (asEuint32 0) (asEuint32 0) false)
              (set_dataset n (mkData n g p (msg_sender env) (block_timestamp env))
                 (set_datasetCount n s)),
            [DatasetSubmitted n (msg_sender env)])
  else inl (Panic 17).
Proof. tx_unfold. destruct (_ <=? _); reflexivity. Qed.

Lemma call_requestGWASAnalysis env d s :
  call env (RequestGWASAnalysis d) s =
  if msg_sender env =? institution (dataset_at s d)
  then if isRevealed (result_at s d) then inl (Revert "Already analyzed")
       else inr (set_request (oracle_request_id env) d s, [AnalysisRequested d])
  else inl (Revert "Not authorized").
Proof.
  tx_unfold. destruct (_ =? _); simpl; [|reflexivity].
  destruct (isRevealed _); reflexivity.
Qed.

Lemma call_requestResultDecryption env d s :
  call env (RequestResultDecryption d) s =
  if msg_sender env =? institution (dataset_at s d)
  then if isRevealed (result_at s d)
       then inr (set_request (oracle_request_id env) d s, [])
       else inl (Revert "Analysis not complete")
  else inl (Revert "Not authorized").
Proof.
  tx_unfold. destruct (_ =? _); simpl; [|reflexivity].
  destruct (isRevealed _); reflexivity.
Qed.

Lemma call_decryptFinalResults env r c p s :
  call env (DecryptFinalResults r c p) s =
  if request_at s r =? 0 then inl (Revert "Invalid request")
  else if checkSignatures r c p
       then match abi_decode_uint32_array c with
            | Some _ => inr (s, [])
            | None => inl AbiDecodeFailure
            end
       else inl InvalidSignatures.
Proof.
  tx_unfold. destruct (_ =? _); simpl; [reflexivity|].
  destruct (checkSignatures _ _ _); simpl; [|reflexivity].
  destruct (abi_decode_uint32_array c); simpl; [|reflexivity].
  destruct s; reflexivity.
Qed.

Lemma call_performAnalysis env r c p s :
  call env (PerformAnalysis r c p) s =
  let d := request_at s r in
  if d =? 0 then inl (Revert "Invalid request")
  else if isRevealed (result_at s d) then inl (Revert "Already analyzed")
  else if checkSignatures r c p
  then match abi_decode_uint32_array c with
       | None => inl AbiDecodeFailure
       | Some vs =>
           match vs with
           | g :: ph :: _ =>
               if g + ph <=? uint32_max
               then if g * ph <=? uint32_max
                    then inr (analysed d g ph s, [ResultDecrypted d])
                    else inl (Panic 17)
               else inl (Panic 17)
           | _ => inl (Panic 50)
           end
       end
  else inl InvalidSignatures.
Proof.
  tx_unfold. destruct (_ =? _); simpl; [reflexivity|].
  destruct (isRevealed _); simpl; [reflexivity|].
  destruct (checkSignatures _ _ _); simpl; [|reflexivity].
  destruct (abi_decode_uint32_array c) as [[|g [|ph vs]]|]; simpl; try reflexivity.
  destruct (g + ph <=? _); simpl; [|reflexivity].
  destruct (g * ph <=? _); simpl; reflexivity.
Qed.


(** *** Effect of one transaction on each part of the storage *)

Lemma transact_requests s ec :
  requestToDatasetId (transact s ec) =
  foldr (λ e m, <[e.1.2 := e.2]> m) (requestToDatasetId s) (registers s ec).
Proof.
  destruct ec as [env c]. unfold transact, registers. cbn [fst snd].
  destruct c.
  - rewrite call_submit. destruct (_ <=? _); reflexivity.
  - rewrite call_requestGWASAnalysis.
    destruct (_ =? _); [|reflexivity]. destruct (isRevealed _); reflexivity.
  - rewrite call_performAnalysis. cbv zeta.
    repeat (case_test || case_values); reflexivity.
  - rewrite call_requestResultDecryption.
    destruct (_ =? _); [|reflexivity]. destruct (isRevealed _); reflexivity.
  - rewrite call_decryptFinalResults.
    repeat (case_test || case_decoded); reflexivity.
Qed.

Lemma registers_short s ec :
  registers s ec = [] ∨ ∃ e, registers s ec = [e].
Proof.
  unfold registers. destruct (call _ _ _); [left; by destruct ec.2|].
  destruct ec.2; eauto.
Qed.

Lemma transact_request_other s ec r :
  r ∉ map (λ e : Stage * Z * Z, e.1.2) (registers s ec) →
  requestToDatasetId (transact s ec) !! r = requestToDatasetId s !! r.
Proof.
  rewrite transact_requests.
  destruct (registers_short s ec) as [-> | [e ->]]; simpl; [done|].
  intros Hr. apply lookup_insert_ne. intros Heq. apply Hr.
  rewrite Heq. apply list_elem_of_here.
Qed.

Lemma run_app s t1 t2 : run s (t1 ++ t2) = run (run s t1) t2.
Proof. apply fold_left_app. Qed.

Lemma registered_app t1 : ∀ s t2,
  registered s (t1 ++ t2) = registered s t1 ++ registered (run s t1) t2.
Proof.
  induction t1 as [|ec t1 IH]; intros s t2; simpl; [done|].
  by rewrite IH, app_assoc.
Qed.

Lemma registered_ids_app s t1 t2 :
  registered_ids s (t1 ++ t2) = registered_ids s t1 ++ registered_ids (run s t1) t2.
Proof. unfold registered_ids. by rewrite registered_app, map_app. Qed.

Lemma run_request_unregistered t : ∀ s r,
  r ∉ registered_ids s t →
  requestToDatasetId (run s t) !! r = requestToDatasetId s !! r.
Proof.
  induction t as [|ec t IH]; intros s r Hr; simpl; [done|].
  unfold registered_ids in Hr. simpl in Hr. rewrite map_app in Hr.
  rewrite IH.
  - apply transact_request_other. intros Hin. apply Hr.
    apply elem_of_app. by left.
  - intros Hin. apply Hr. apply elem_of_app. by right.
Qed.

Lemma run_request_kept t : ∀ s r,
  is_Some (requestToDatasetId s !! r) →
  is_Some (requestToDatasetId (run s t) !! r).
Proof.
  induction t as [|ec t IH]; intros s r Hs; simpl; [done|].
  apply IH. rewrite transact_requests.
  destruct (registers_short s ec) as [-> | [e ->]]; simpl; [done|].
  rewrite lookup_insert. by destruct (decide _).
Qed.

Lemma run_request_registered t r d :
  requestToDatasetId (run init t) !! r = Some d → r ∈ registered_ids init t.
Proof.
  intros Hl. destruct (decide (r ∈ registered_ids init t)) as [|Hn]; [done|].
  rewrite (run_request_unregistered t init r Hn) in Hl. simpl in Hl.
  by rewrite lookup_empty in Hl.
Qed.


(** *** Datasets and the counter *)

Lemma transact_count s ec :
  datasetCount (transact s ec) =
  datasetCount s + Z.of_nat (length (submitted_ids (events_of s ec))).
Proof.
  destruct ec as [env c]. unfold transact, events_of. cbn [fst snd].
  destruct c.
  - rewrite call_submit. destruct (_ <=? _); simpl; lia.
  - rewrite call_requestGWASAnalysis.
    destruct (_ =? _); [|simpl; lia]. destruct (isRevealed _); simpl; lia.
  - rewrite call_performAnalysis. cbv zeta.
    repeat (case_test || case_values); simpl; lia.
  - rewrite call_requestResultDecryption.
    destruct (_ =? _); [|simpl; lia]. destruct (isRevealed _); simpl; lia.
  - rewrite call_decryptFinalResults.
    repeat (case_test || case_decoded); simpl; lia.
Qed.

Lemma transact_submitted s ec :
  submitted_ids (events_of s ec) = [] ∨
  submitted_ids (events_of s ec) = [datasetCount s + 1].
Proof.
  destruct ec as [env c]. unfold events_of. cbn [fst snd].
  destruct c.
  - rewrite call_submit. destruct (_ <=? _); simpl; auto.
  - rewrite call_requestGWASAnalysis.
    destruct (_ =? _); [|simpl; auto]. destruct (isRevealed _); simpl; auto.
  - rewrite call_performAnalysis. cbv zeta.
    repeat (case_test || case_values); simpl; auto.
  - rewrite call_requestResultDecryption.
    destruct (_ =? _); [|simpl; auto]. destruct (isRevealed _); simpl; auto.
  - rewrite call_decryptFinalResults.
    repeat (case_test || case_decoded); simpl; auto.
Qed.

Lemma submitted_ids_app l1 l2 :
  submitted_ids (l1 ++ l2) = submitted_ids l1 ++ submitted_ids l2.
Proof. unfold submitted_ids. apply omap_app. Qed.

Lemma run_submitted t : ∀ s,
  let ids := submitted_ids (run_events s t) in
  ids = (λ k, datasetCount s + Z.of_nat k) <$> seq 1 (length ids) ∧
  datasetCount (run s t) = datasetCount s + Z.of_nat (length ids).
Proof.
  induction t as [|ec t IH]; intros s; simpl.
  { split; [done | lia]. }
  rewrite submitted_ids_app. destruct (IH (transact s ec)) as [IH1 IH2].
  rewrite IH2. rewrite transact_count in IH1 |- *.
  rewrite length_app.
  destruct (transact_submitted s ec) as [E | E]; rewrite E in *; simpl in *.
  - split; [|lia]. rewrite IH1 at 1. apply list_fmap_ext. intros; lia.
  - split; [|lia]. f_equal; try lia.
    rewrite IH1 at 1. rewrite <- (fmap_S_seq 1), <- list_fmap_compose.
    apply list_fmap_ext. intros. simpl. lia.
Qed.


(** The shapes the storage can take after one transaction. *)
Lemma transact_cases s env c :
  transact s (env, c) = s ∨
  (∃ g p, c = SubmitEncryptedDataset g p ∧ datasetCount s + 1 ≤ uint256_max ∧
     transact s (env, c) =
       let n := datasetCount s + 1 in
       set_result n (mkResult (asEuint32 0) (asEuint32 0) false)
         (set_dataset n (mkData n g p (msg_sender env) (block_timestamp env))
            (set_datasetCount n s))) ∨
  (∃ d, (c = RequestGWASAnalysis d ∨ c = RequestResultDecryption d) ∧
     msg_sender env = institution (dataset_at s d) ∧
     transact s (env, c) = set_request (oracle_request_id env) d s) ∨
  (∃ r cl p g ph, c = PerformAnalysis r cl p ∧ request_at s r ≠ 0 ∧
     isRevealed (result_at s (request_at s r)) = false ∧
     transact s (env, c) = analysed (request_at s r) g ph s).
Proof.
  unfold transact. cbn [fst snd]. destruct c.
  - rewrite call_submit. destruct (_ <=? _) eqn:E; [|by left].
    right; left. eexists _, _. split; [done|]. split; [lia | done].
  - rewrite call_requestGWASAnalysis. destruct (_ =? _) eqn:E; [|by left].
    destruct (isRevealed _); [by left|].
    right; right; left. exists datasetId. split; [by left|]. split; [lia | done].
  - rewrite call_performAnalysis. cbv zeta.
    destruct (_ =? 0) eqn:E0; [by left|].
    destruct (isRevealed _) eqn:Er; [by left|].
    destruct (checkSignatures _ _ _); [|by left].
    destruct (abi_decode_uint32_array _) as [[|g [|ph vs]]|]; try by left.
    destruct (g + ph <=? _); [|by left]. destruct (g * ph <=? _); [|by left].
    right; right; right. eexists _, _, _, g, ph. split; [done|].
    split; [lia|]. split; done.
  - rewrite call_requestResultDecryption. destruct (_ =? _) eqn:E; [|by left].
    destruct (isRevealed _); [|by left].
    right; right; left. exists datasetId. split; [by right|]. split; [lia | done].
  - rewrite call_decryptFinalResults. destruct (_ =? 0); [by left|].
    destruct (checkSignatures _ _ _); [|by left].
    destruct (abi_decode_uint32_array _); by left.
Qed.

Lemma dataset_at_submit s n d k :
  dataset_at (set_result n (mkResult (asEuint32 0) (asEuint32 0) false)
                (set_dataset n d (set_datasetCount n s))) k =
  if decide (n = k) then d else dataset_at s k.
Proof.
  unfold dataset_at. simpl. rewrite lookup_insert. by destruct (decide _).
Qed.

Lemma result_at_set_result s n r k :
  result_at (set_result n r s) k = if decide (n = k) then r else result_at s k.
Proof.
  unfold result_at. simpl. rewrite lookup_insert. by destruct (decide _).
Qed.

Lemma request_at_set_request s r d k :
  request_at (set_request r d s) k = if decide (r = k) then d else request_at s k.
Proof.
  unfold request_at. simpl. rewrite lookup_insert. by destruct (decide _).
Qed.

Lemma result_at_analysed s d g ph k :
  result_at (analysed d g ph s) k =
  if decide (d = k) then mkResult (asEuint32 (g + ph)) (asEuint32 (g * ph)) true
  else result_at s k.
Proof.
  unfold analysed, set_isRevealed, set_encryptedOddsRatio, set_encryptedPValue.
  cbv zeta. rewrite !result_at_set_result.
  destruct (decide (d = k)) as [->|]; [|done].
  rewrite ?result_at_set_result, ?decide_True by done. done.
Qed.

(** Stored datasets carry the identifier they are stored under. *)
Lemma run_ids_stored t : ∀ s,
  0 ≤ datasetCount s →
  (∀ k, 1 ≤ k ≤ datasetCount s → id (dataset_at s k) = k) →
  0 ≤ datasetCount (run s t) ∧
  ∀ k, 1 ≤ k ≤ datasetCount (run s t) → id (dataset_at (run s t) k) = k.
Proof.
  induction t as [|[env c] t IH]; intros s H0 Hs; simpl; [done|].
  apply IH.
  - rewrite transact_count. lia.
  - destruct (transact_cases s env c)
      as [E | [(g & p & _ & _ & E) | [(d & _ & _ & E) | (r & cl & p & g & ph & _ & _ & _ & E)]]];
      rewrite E; try done.
    intros k Hk. cbv zeta in *. rewrite dataset_at_submit.
    destruct (decide _) as [->|]; [done|]. simpl in Hk. apply Hs. lia.
Qed.

(** *** Stored datasets stay, and every submission stores one *)

Lemma transact_dataset_kept s ec k :
  k ≤ datasetCount s → dataset_at (transact s ec) k = dataset_at s k.
Proof.
  intros Hk. destruct ec as [env c].
  destruct (transact_cases s env c)
    as [E | [(g & p & _ & _ & E) | [(d & _ & _ & E) | (r & cl & p & g & ph & _ & _ & _ & E)]]];
    rewrite E; try done.
  cbv zeta. rewrite dataset_at_submit. destruct (decide _); [lia | done].
Qed.

Lemma transact_count_grows s ec : datasetCount s ≤ datasetCount (transact s ec).
Proof. rewrite transact_count. lia. Qed.

Lemma run_count_grows t : ∀ s, datasetCount s ≤ datasetCount (run s t).
Proof.
  induction t as [|ec t IH]; intros s; simpl; [lia|].
  etransitivity; [apply (transact_count_grows s ec) | apply IH].
Qed.

Lemma run_count_nonneg t : 0 ≤ datasetCount (run init t).
Proof. apply (run_count_grows t init). Qed.

Lemma run_dataset_kept t : ∀ s k,
  k ≤ datasetCount s → dataset_at (run s t) k = dataset_at s k.
Proof.
  induction t as [|ec t IH]; intros s k Hk; simpl; [done|].
  rewrite IH.
  - by apply transact_dataset_kept.
  - pose proof (transact_count_grows s ec). lia.
Qed.

(** Only a submission announces a dataset. *)
Lemma submitted_ids_other s env c :
  (∀ g p, c ≠ SubmitEncryptedDataset g p) →
  submitted_ids (events_of s (env, c)) = [].
Proof.
  intros Hc. unfold events_of. cbn [fst snd]. destruct c as [g p| | | |].
  - by destruct (Hc g p).
  - rewrite call_requestGWASAnalysis.
    destruct (_ =? _); [|done]. by destruct (isRevealed _).
  - rewrite call_performAnalysis. cbv zeta.
    repeat (case_test || case_values); done.
  - rewrite call_requestResultDecryption.
    destruct (_ =? _); [|done]. by destruct (isRevealed _).
  - rewrite call_decryptFinalResults.
    repeat (case_test || case_decoded); done.
Qed.

(** As long as the counter does not overflow, every submission of a trace
    succeeds: the n-th announces the n-th identifier after the counter,
    and the record it stores under it is there at the end of the trace. *)
Lemma run_submissions t : ∀ s,
  0 ≤ datasetCount s →
  datasetCount s + Z.of_nat (length (submissions t)) ≤ uint256_max →
  length (submitted_ids (run_events s t)) = length (submissions t) ∧
  ∀ n env g p, submissions t !! n = Some (env, g, p) →
    let k := datasetCount s + Z.of_nat (S n) in
    DatasetSubmitted k (msg_sender env) ∈ run_events s t ∧
    dataset_at (run s t) k = mkData k g p (msg_sender env) (block_timestamp env).
Proof.
  induction t as [|[env c] t IH]; intros s H0 Hmax; [done|].
  cbn [run_events]. change (run s ((env, c) :: t)) with (run (transact s (env, c)) t).
  rewrite submitted_ids_app, length_app.
  assert ((∃ g p, c = SubmitEncryptedDataset g p) ∨
          (∀ g p, c ≠ SubmitEncryptedDataset g p)) as [(g & p & ->)|Hc'].
  { destruct c; [left; eauto | right; done ..]. }
  - change (submissions ((env, SubmitEncryptedDataset g p) :: t))
      with ((env, g, p) :: submissions t) in *.
    cbn [length] in Hmax.
    unfold events_of, transact. cbn [fst snd]. rewrite call_submit.
    destruct (_ <=? _) eqn:E; [|lia]. cbv zeta.
    set (s1 := set_result _ _ _).
    assert (datasetCount s1 = datasetCount s + 1) as Hc1 by done.
    destruct (IH s1) as [IHl IHn]; [lia | lia |].
    split; [simpl; by rewrite IHl|].
    intros [|n] env' g' p' Hn; cbv zeta.
    + injection Hn as -> -> ->.
      replace (datasetCount s + Z.of_nat 1) with (datasetCount s + 1) by lia.
      split; [apply elem_of_app; left; apply list_elem_of_here|].
      rewrite run_dataset_kept by lia.
      unfold s1. rewrite dataset_at_submit. by rewrite decide_True.
    + specialize (IHn n env' g' p' Hn). cbv zeta in IHn. rewrite Hc1 in IHn.
      replace (datasetCount s + Z.of_nat (S (S n)))
        with (datasetCount s + 1 + Z.of_nat (S n)) by lia.
      destruct IHn as [IHe IHd]. split; [apply elem_of_app; by right | done].
  - assert (submissions ((env, c) :: t) = submissions t) as Es.
    { unfold submissions. csimpl. destruct c as [g p| | | |]; try done.
      by destruct (Hc' g p). }
    rewrite Es in *.
    pose proof (transact_count s (env, c)) as Hcount.
    rewrite submitted_ids_other in Hcount |- * by done. simpl in Hcount.
    destruct (IH (transact s (env, c))) as [IHl IHn]; [lia | lia |].
    split; [done|]. intros n env' g' p' Hn. cbv zeta.
    specialize (IHn n env' g' p' Hn). cbv zeta in IHn.
    replace (datasetCount (transact s (env, c))) with (datasetCount s) in IHn by lia.
    destruct IHn as [IHe IHd]. split; [apply elem_of_app; by right | done].
Qed.

(** The counting invariant holds along traces sent by accounts. *)
Lemma within_count_init : within_count init.
Proof.
  split; [done|]. split; intros k; unfold dataset_at, request_at; simpl;
    rewrite lookup_empty; simpl; done.
Qed.

Lemma within_count_transact s env c :
  msg_sender env ≠ 0 → within_count s → within_count (transact s (env, c)).
Proof.
  intros Hsender (H0 & Hd & Hr).
  destruct (transact_cases s env c)
    as [E | [(g & p & _ & _ & E) | [(d & _ & Ho & E) | (r & cl & p & g & ph & _ & _ & _ & E)]]];
    rewrite E; clear E.
  - done.
  - cbv zeta. split; [simpl; lia|]. split.
    + intros k. rewrite dataset_at_submit. simpl.
      destruct (decide _) as [<-|]; [lia|]. intros Hk%Hd. lia.
    + intros r.
      change (request_at s r ≠ 0 → 1 ≤ request_at s r ≤ datasetCount s + 1).
      intros Hq%Hr. lia.
  - split; [done|]. split; [exact Hd|].
    intros r. rewrite request_at_set_request.
    destruct (decide _); [|apply Hr]. intros _. apply Hd. congruence.
  - split; [done|]. split; [exact Hd | exact Hr].
Qed.

Lemma within_count_run t : ∀ s,
  sent_by_accounts t → within_count s → within_count (run s t).
Proof.
  induction t as [|[env c] t IH]; intros s Ht Hs; simpl; [done|].
  inversion Ht; subst. apply IH; [done|]. by apply within_count_transact.
Qed.

(** Once a handed-out dataset is analysed, its analysis record is frozen. *)
Lemma analysed_frozen t : ∀ s d,
  1 ≤ d ≤ datasetCount s → isRevealed (result_at s d) = true →
  result_at (run s t) d = result_at s d.
Proof.
  induction t as [|[env c] t IH]; intros s d Hd Hrev; simpl; [done|].
  assert (result_at (transact s (env, c)) d = result_at s d) as Hstep.
  { destruct (transact_cases s env c)
      as [E | [(g & p & _ & _ & E) | [(d' & _ & _ & E) | (r & cl & p & g & ph & _ & _ & Hn & E)]]];
      rewrite E; clear E; try done.
    - cbv zeta. rewrite result_at_set_result.
      destruct (decide _); [lia | done].
    - rewrite result_at_analysed. destruct (decide _) as [Heq|]; [|done].
      rewrite Heq in Hn. congruence. }
  rewrite IH; [done | | by rewrite Hstep].
  rewrite transact_count. lia.
Qed.


Lemma be_value_nonneg bs : 0 ≤ be_value bs.
Proof.
  unfold be_value. assert (∀ a, 0 ≤ a → 0 ≤ fold_left (λ acc b, acc * 256 + Z.of_N (Byte.to_N b)) bs a) as G.
  { induction bs as [|b bs IH]; intros a Ha; simpl; [done|]. apply IH. lia. }
  by apply G.
Qed.

Lemma word_at_nonneg data off w : word_at data off = Some w → 0 ≤ w.
Proof.
  unfold word_at. destruct (_ && _); [|done]. intros [= <-]. apply be_value_nonneg.
Qed.

Lemma uint32_words_range data n : ∀ off vs,
  uint32_words data off n = Some vs → Forall (λ v, 0 ≤ v ≤ uint32_max) vs.
Proof.
  induction n as [|n IH]; intros off vs; simpl.
  { intros [= <-]. constructor. }
  destruct (word_at data off) as [w|] eqn:Ew; simpl; [|done].
  destruct (w <=? uint32_max) eqn:El; [|done].
  destruct (uint32_words data (off + 32) n) as [ws|] eqn:Ews; simpl; [|done].
  intros [= <-]. constructor; [|by eapply IH].
  split; [by eapply word_at_nonneg | lia].
Qed.

Lemma abi_decode_range data vs :
  abi_decode_uint32_array data = Some vs → Forall (λ v, 0 ≤ v ≤ uint32_max) vs.
Proof.
  unfold abi_decode_uint32_array.
  destruct (word_at data 0) as [off|]; simpl; [|done].
  destruct (word_at data off) as [len|]; simpl; [|done].
  destruct (_ <=? _); [|done]. apply uint32_words_range.
Qed.

(** ** The claims about the ledger *)

(** C1 (as the code has it). [decryptFinalResults] succeeds exactly when the
    request identifier resolves to a dataset, the proof is accepted and the
    cleartext decodes; it then leaves the storage as it was and emits none
    of the contract's events. The decrypted values are neither stored nor
    announced by the contract, and no status or flag is set. *)
Theorem C1_decryptFinalResults_changes_nothing env r c p s s' evs :
  call env (DecryptFinalResults r c p) s = inr (s', evs) ↔
  request_at s r ≠ 0 ∧ checkSignatures r c p = true ∧
  is_Some (abi_decode_uint32_array c) ∧ s' = s ∧ evs = [].
Proof.
  rewrite call_decryptFinalResults. split.
  - destruct (_ =? 0) eqn:E0; [done|].
    destruct (checkSignatures _ _ _); [|done].
    destruct (abi_decode_uint32_array c); [|done].
    intros [= <- <-]. repeat split; eauto. lia.
  - intros (Hr & -> & [vs ->] & -> & ->).
    destruct (_ =? 0) eqn:E0; [lia | done].
Qed.

(** C2 (as the code has it). A correlation entry, once written, is never
    removed; and it is never overwritten as long as the oracle never issues
    the same request identifier twice: under that condition, what a
    request identifier resolves to at any point of a trace is what it
    resolves to at the end. *)
Theorem C2_entries_write_once t1 t2 r d :
  requestToDatasetId (run init t1) !! r = Some d →
  is_Some (requestToDatasetId (run init (t1 ++ t2)) !! r) ∧
  (NoDup (registered_ids init (t1 ++ t2)) →
   requestToDatasetId (run init (t1 ++ t2)) !! r = Some d).
Proof.
  intros Hl. split.
  - rewrite run_app. apply run_request_kept. by rewrite Hl.
  - intros Hnd. rewrite registered_ids_app in Hnd.
    apply NoDup_app in Hnd as (_ & Hdisj & _).
    rewrite run_app, run_request_unregistered; [done|].
    apply Hdisj. by eapply run_request_registered.
Qed.

(** C3. Along every trace, the identifiers announced by the successive
    successful submissions are 1, 2, 3, ...: the n-th is n. They are
    strictly increasing and pairwise distinct, the counter equals their
    number, and every identifier handed out names the record stored
    under it. As long as the counter stays within 256 bits, every
    [submitEncryptedDataset] call of the trace succeeds and is one of
    these submissions: the n-th such call, whatever is interleaved with
    it, announces identifier n with its sender, and the record found
    under n at the end of the trace is the one it submitted. A further
    submission then succeeds as well, and is assigned the next
    identifier. *)
Theorem C3_identifiers_sequential t :
  let ids := submitted_ids (run_events init t) in
  let s := run init t in
  (ids = Z.of_nat <$> seq 1 (length ids) ∧
   datasetCount s = Z.of_nat (length ids) ∧
   (∀ i j a b, (i < j)%nat → ids !! i = Some a → ids !! j = Some b → a < b) ∧
   NoDup ids ∧
   (∀ k, 1 ≤ k ≤ datasetCount s → id (dataset_at s k) = k)) ∧
  (Z.of_nat (length (submissions t)) ≤ uint256_max →
   length ids = length (submissions t) ∧
   ∀ n env g p, submissions t !! n = Some (env, g, p) →
     let k := Z.of_nat (S n) in
     ids !! n = Some k ∧
     DatasetSubmitted k (msg_sender env) ∈ run_events init t ∧
     dataset_at s k = mkData k g p (msg_sender env) (block_timestamp env)) ∧
  (∀ env g p, datasetCount s < uint256_max →
     ∃ s', call env (SubmitEncryptedDataset g p) s =
             inr (s', [DatasetSubmitted (Z.of_nat (S (length ids))) (msg_sender env)]) ∧
           datasetCount s' = Z.of_nat (S (length ids)) ∧
           dataset_at s' (Z.of_nat (S (length ids))) =
             mkData (Z.of_nat (S (length ids))) g p
                    (msg_sender env) (block_timestamp env)).
Proof.
  intros ids s. destruct (run_submitted t init) as [Hids Hc]. fold ids in Hids, Hc.
  simpl in Hids, Hc. fold s in Hc.
  assert (ids = Z.of_nat <$> seq 1 (length ids)) as E.
  { rewrite Hids at 1. apply list_fmap_ext. intros; lia. }
  assert (∀ i a, ids !! i = Some a → a = Z.of_nat (S i)) as Hnth.
  { intros i a. rewrite E, list_lookup_fmap.
    destruct (seq 1 (length ids) !! i) as [x|] eqn:Ex; simpl; [|done].
    apply lookup_seq in Ex as [-> _]. intros [= <-]. done. }
  split; [|split].
  - split; [done|]. split; [done|]. split; [|split].
    + intros i j a b Hij Ha%Hnth Hb%Hnth. lia.
    + apply NoDup_alt. intros i j a Ha%Hnth Hb%Hnth. lia.
    + apply run_ids_stored; [done|]. simpl. intros; lia.
  - intros Hmax. destruct (run_submissions t init) as [Hl Hn]; [done | simpl; lia |].
    fold ids in Hl. split; [done|]. intros n env g p Hsub. cbv zeta.
    destruct (Hn n env g p Hsub) as [He Hd]. simpl datasetCount in He, Hd.
    rewrite Z.add_0_l in He, Hd. split; [|done].
    destruct (ids !! n) as [a|] eqn:Ea.
    + by rewrite (Hnth n a Ea).
    + apply lookup_ge_None in Ea. apply lookup_lt_Some in Hsub. lia.
  - intros env g p Hlt. rewrite call_submit.
    destruct (_ <=? _) eqn:El; [|lia]. cbv zeta.
    replace (datasetCount s + 1) with (Z.of_nat (S (length ids))) by lia.
    eexists. split; [done|]. split; [done|].
    rewrite dataset_at_submit. by rewrite decide_True.
Qed.

(** C4. In every state reached from deployment, a request identifier that
    no successful [requestGWASAnalysis] or [requestResultDecryption] has
    registered makes both callbacks fail with "Invalid request", and the
    storage stays as it was. *)
Theorem C4_unregistered_request_rejected t r env c p :
  r ∉ registered_ids init t →
  let s := run init t in
  call env (PerformAnalysis r c p) s = inl (Revert "Invalid request") ∧
  call env (DecryptFinalResults r c p) s = inl (Revert "Invalid request") ∧
  transact s (env, PerformAnalysis r c p) = s ∧
  transact s (env, DecryptFinalResults r c p) = s.
Proof.
  intros Hr s.
  assert (request_at s r = 0) as E.
  { unfold request_at, s. rewrite run_request_unregistered by done.
    simpl. by rewrite lookup_empty. }
  assert (call env (PerformAnalysis r c p) s = inl (Revert "Invalid request")) as E1.
  { rewrite call_performAnalysis. cbv zeta. by rewrite E. }
  assert (call env (DecryptFinalResults r c p) s = inl (Revert "Invalid request")) as E2.
  { rewrite call_decryptFinalResults. by rewrite E. }
  unfold transact. cbn [fst snd]. by rewrite E1, E2.
Qed.

(** C5. In every state and for every dataset, a caller that is not the
    institution recorded for the dataset makes [requestGWASAnalysis] and
    [requestResultDecryption] fail with "Not authorized", and the storage
    stays as it was. *)
Theorem C5_non_owner_rejected env s d :
  msg_sender env ≠ institution (dataset_at s d) →
  call env (RequestGWASAnalysis d) s = inl (Revert "Not authorized") ∧
  call env (RequestResultDecryption d) s = inl (Revert "Not authorized") ∧
  transact s (env, RequestGWASAnalysis d) = s ∧
  transact s (env, RequestResultDecryption d) = s.
Proof.
  intros Hne.
  assert ((msg_sender env =? institution (dataset_at s d)) = false) as E by lia.
  assert (call env (RequestGWASAnalysis d) s = inl (Revert "Not authorized")) as E1.
  { rewrite call_requestGWASAnalysis. by rewrite E. }
  assert (call env (RequestResultDecryption d) s = inl (Revert "Not authorized")) as E2.
  { rewrite call_requestResultDecryption. by rewrite E. }
  unfold transact. cbn [fst snd]. by rewrite E1, E2.
Qed.

(** C6. Take a state reached from deployment by transactions of accounts,
    and a [performAnalysis] that succeeds there for request [r]. After any
    further transactions, as long as [r] still resolves to the same
    dataset, [performAnalysis] with [r] fails with "Already analyzed"
    whatever cleartext and proof it is given, the storage stays as it was,
    and the analysis record of the dataset is still the one the first
    completion stored. *)
Theorem C6_second_completion_rejected t0 env r c p s1 evs t1 env' c' p' :
  sent_by_accounts t0 →
  call env (PerformAnalysis r c p) (run init t0) = inr (s1, evs) →
  request_at (run s1 t1) r = request_at (run init t0) r →
  let s2 := run s1 t1 in
  call env' (PerformAnalysis r c' p') s2 = inl (Revert "Already analyzed") ∧
  transact s2 (env', PerformAnalysis r c' p') = s2 ∧
  result_at s2 (request_at s2 r) = result_at s1 (request_at s2 r).
Proof.
  intros Ht0 Hcall Hsame s2.
  pose proof (within_count_run t0 init Ht0 within_count_init) as (H0 & _ & Hreq).
  set (s0 := run init t0) in *. set (d := request_at s0 r) in *.
  rewrite call_performAnalysis in Hcall. cbv zeta in Hcall. fold d in Hcall.
  destruct (d =? 0) eqn:Ed; [done|].
  destruct (isRevealed (result_at s0 d)) eqn:Er; [done|].
  destruct (checkSignatures r c p); [|done].
  destruct (abi_decode_uint32_array c) as [[|g [|ph vs]]|]; try done.
  destruct (g + ph <=? _); [|done]. destruct (g * ph <=? _); [|done].
  injection Hcall as <- <-.
  assert (1 ≤ d ≤ datasetCount s0) as Hd by (apply Hreq; fold d; lia).
  assert (isRevealed (result_at (analysed d g ph s0) d) = true) as Hrev.
  { rewrite result_at_analysed. by rewrite decide_True. }
  assert (result_at s2 d = result_at (analysed d g ph s0) d) as Hfrozen.
  { apply analysed_frozen; [|done]. exact Hd. }
  assert (call env' (PerformAnalysis r c' p') s2 = inl (Revert "Already analyzed")) as E1.
  { rewrite call_performAnalysis. cbv zeta. fold s2 in Hsame. rewrite Hsame.
    rewrite Ed, Hfrozen, Hrev. done. }
  split; [done|]. split.
  - unfold transact. cbn [fst snd]. by rewrite E1.
  - fold s2 in Hsame. rewrite Hsame. exact Hfrozen.
Qed.

(** C7. Whenever [performAnalysis] succeeds, the cleartext decodes to an
    array that starts with two [uint32] values, genotype and phenotype;
    their sum and their product both fit in 32 bits, and the analysis record
    holds the encryption of exactly that sum and that product, with the
    flag set. Whenever the decoded sum or product exceeds 2^32 - 1, the
    call fails: with the arithmetic panic if it gets as far as the
    computation. *)
Theorem C7_statistics_exact_or_revert env r c p s :
  (∀ s' evs, call env (PerformAnalysis r c p) s = inr (s', evs) →
     ∃ g ph rest,
       abi_decode_uint32_array c = Some (g :: ph :: rest) ∧
       0 ≤ g ≤ uint32_max ∧ 0 ≤ ph ≤ uint32_max ∧
       g + ph ≤ uint32_max ∧ g * ph ≤ uint32_max ∧
       result_at s' (request_at s r) =
         mkResult (asEuint32 (g + ph)) (asEuint32 (g * ph)) true) ∧
  (∀ g ph rest,
     abi_decode_uint32_array c = Some (g :: ph :: rest) →
     uint32_max < g + ph ∨ uint32_max < g * ph →
     (∃ e, call env (PerformAnalysis r c p) s = inl e) ∧
     (request_at s r ≠ 0 → isRevealed (result_at s (request_at s r)) = false →
      checkSignatures r c p = true →
      call env (PerformAnalysis r c p) s = inl (Panic 17))).
Proof.
  rewrite call_performAnalysis. cbv zeta. split.
  - intros s' evs.
    destruct (_ =? 0); [done|]. destruct (isRevealed _); [done|].
    destruct (checkSignatures _ _ _); [|done].
    destruct (abi_decode_uint32_array c) as [[|g [|ph vs]]|] eqn:Ed; try done.
    destruct (g + ph <=? _) eqn:Ea; [|done]. destruct (g * ph <=? _) eqn:Em; [|done].
    intros [= <- <-]. exists g, ph, vs.
    apply abi_decode_range in Ed.
    inversion Ed as [|? ? Hg Ed']; subst. inversion Ed' as [|? ? Hph _]; subst.
    rewrite result_at_analysed, decide_True by done.
    repeat split; try done; lia.
  - intros g ph rest -> Hover. split.
    + destruct (_ =? 0); [eauto|]. destruct (isRevealed _); [eauto|].
      destruct (checkSignatures _ _ _); [|eauto].
      destruct (g + ph <=? _) eqn:Ea; [|eauto].
      destruct (g * ph <=? _) eqn:Em; [|eauto]. lia.
    + intros Hr -> ->. destruct (_ =? 0) eqn:E0; [lia|].
      destruct (g + ph <=? _) eqn:Ea; [|done].
      destruct (g * ph <=? _) eqn:Em; [|done]. lia.
Qed.

End LedgerFacts.

(** ** The ledger claims on concrete traces *)

Section LedgerExamples.
#[local] Existing Instance clear_fhe.

(** C1, counterexample to the claim as stated. Request 2 is the reveal
    request registered for dataset 1; the callback for it, carrying the
    decrypted statistics 17 and 70, succeeds, and the storage after it is
    the storage before it, with no event emitted. *)
Lemma C1_counterexample :
  (Reveal, 2, 1) ∈ registered init analysed_trace ∧
  call (from relayer 0)
       (DecryptFinalResults 2 (abi_encode_uint32_array [17; 70]) [])
       (run init analysed_trace)
  = inr (run init analysed_trace, []).
Proof.
  split.
  - apply list_elem_of_In. vm_compute. auto.
  - vm_compute. reflexivity.
Qed.

(** C1 on the same call: the three conditions hold, so the call succeeds
    and returns the storage it was given. *)
Lemma C1_witness :
  call (from relayer 0)
       (DecryptFinalResults 2 (abi_encode_uint32_array [17; 70]) [])
       (run init analysed_trace)
  = inr (run init analysed_trace, []).
Proof.
  apply C1_decryptFinalResults_changes_nothing.
  split; [vm_compute; discriminate|]. split; [reflexivity|].
  split; [vm_compute; eauto|]. split; reflexivity.
Defined.

(** C2, counterexample to the claim as stated. With fresh request
    identifiers 1 and 2, both analysis requests for dataset 1 are
    registered and neither is completed. *)
Lemma C2_counterexample :
  registered_ids init double_request_trace = [1; 2] ∧
  request_at (run init double_request_trace) 1 = 1 ∧
  request_at (run init double_request_trace) 2 = 1 ∧
  completed init double_request_trace = [] ∧
  outstanding Analysis 1 init double_request_trace = [1; 2].
Proof. repeat split; vm_compute; reflexivity. Qed.

(** C2 on a trace whose request identifiers 1 and 2 are distinct: what
    request 1 resolves to after the first two calls, it still resolves to
    at the end. *)
Lemma C2_witness :
  requestToDatasetId
    (run init (requested_trace
               ++ [completion; (from alice 2, RequestResultDecryption 1)])) !! 1
  = Some 1.
Proof.
  apply (C2_entries_write_once requested_trace
           [completion; (from alice 2, RequestResultDecryption 1)] 1 1).
  - vm_compute. reflexivity.
  - apply (bool_decide_unpack _). vm_compute. exact I.
Defined.

(** C3 on a trace with two submissions, Alice's and, after the analysis of
    hers, Bob's: the second submit call is announced as dataset 2 of Bob,
    and Bob's record stands under 2. *)
Lemma C3_witness :
  submitted_ids (run_events init two_submissions_trace) !! 1%nat = Some 2 ∧
  DatasetSubmitted 2 bob ∈ run_events init two_submissions_trace ∧
  dataset_at (run init two_submissions_trace) 2 = mkData 2 601 602 bob 1700000000.
Proof.
  destruct (C3_identifiers_sequential two_submissions_trace) as (_ & Hcalls & _).
  destruct Hcalls as [_ Hnth].
  - apply Z.leb_le. vm_compute. reflexivity.
  - apply (Hnth 1%nat (from bob 0) 601 602). vm_compute. reflexivity.
Defined.

(** C4 on the analysed trace, where only requests 1 and 2 were registered:
    request 3 is rejected by both callbacks. *)
Lemma C4_witness :
  call (from relayer 0) (PerformAnalysis 3 (abi_encode_uint32_array [7; 10]) [])
       (run init analysed_trace) = inl (Revert "Invalid request") ∧
  call (from relayer 0) (DecryptFinalResults 3 (abi_encode_uint32_array [7; 10]) [])
       (run init analysed_trace) = inl (Revert "Invalid request").
Proof.
  assert (3 ∉ registered_ids init analysed_trace) as Hfresh.
  { rewrite list_elem_of_In. vm_compute. lia. }
  destruct (C4_unregistered_request_rejected analysed_trace 3 (from relayer 0)
              (abi_encode_uint32_array [7; 10]) [] Hfresh) as (E1 & E2 & _).
  exact (conj E1 E2).
Defined.

(** C5 with Bob calling on Alice's dataset, before and after its
    analysis. *)
Lemma C5_witness :
  call (from bob 5) (RequestGWASAnalysis 1) (run init requested_trace)
    = inl (Revert "Not authorized") ∧
  call (from bob 5) (RequestResultDecryption 1) (run init analysed_trace)
    = inl (Revert "Not authorized").
Proof.
  split.
  - apply (C5_non_owner_rejected (from bob 5) (run init requested_trace) 1).
    vm_compute. discriminate.
  - apply (C5_non_owner_rejected (from bob 5) (run init analysed_trace) 1).
    vm_compute. discriminate.
Defined.

(** C6: after the completion of request 1, a reveal request and another
    submission, a second completion of request 1 is rejected. *)
Lemma C6_witness :
  call (from relayer 0) (PerformAnalysis 1 (abi_encode_uint32_array [1; 1]) [])
       (run init (analysed_trace ++ [(from bob 0, SubmitEncryptedDataset 7 8)]))
  = inl (Revert "Already analyzed").
Proof.
  pose proof (C6_second_completion_rejected requested_trace
                (from relayer 0) 1 (abi_encode_uint32_array [7; 10]) []
                (run init (requested_trace ++ [completion])) [ResultDecrypted 1]
                [(from alice 2, RequestResultDecryption 1);
                 (from bob 0, SubmitEncryptedDataset 7 8)]
                (from relayer 0) (abi_encode_uint32_array [1; 1]) []) as W.
  apply W.
  - repeat constructor; vm_compute; discriminate.
  - vm_compute. reflexivity.
  - vm_compute. reflexivity.
Defined.

(** C7: genotype 7 and phenotype 10 give 17 and 70; genotype 2^32 - 1 and
    phenotype 2 overflow the sum, and the call panics. *)
Lemma C7_witness :
  result_at (run init (requested_trace ++ [completion])) 1 = mkResult 17 70 true ∧
  call (from relayer 0)
       (PerformAnalysis 1 (abi_encode_uint32_array [4294967295; 2]) [])
       (run init requested_trace) = inl (Panic 17).
Proof.
  split.
  - destruct (C7_statistics_exact_or_revert (from relayer 0) 1
                (abi_encode_uint32_array [7; 10]) [] (run init requested_trace))
      as [W _].
    destruct (W (run init (requested_trace ++ [completion])) [ResultDecrypted 1])
      as (g & ph & rest & Hdec & _ & _ & _ & _ & Hres).
    { vm_compute. reflexivity. }
    vm_compute in Hdec. injection Hdec as <- <- _.
    vm_compute in Hres. vm_compute. exact Hres.
  - destruct (C7_statistics_exact_or_revert (from relayer 0) 1
                (abi_encode_uint32_array [4294967295; 2]) [] (run init requested_trace))
      as [_ W].
    apply (W 4294967295 2 []).
    + vm_compute. reflexivity.
    + left. vm_compute. reflexivity.
    + vm_compute. discriminate.
    + vm_compute. reflexivity.
    + reflexivity.
Defined.

End LedgerExamples.

End LedgerProofs.

(* ===================================================================== *)
(** * Part IV: properties of the client                                   *)
(* ===================================================================== *)

Module ClientProofs.
Import Client.

(** *** The sort *)

Section Sorting.
Context {A : Type} (cmp : A → A → Z).

Lemma sort_insert_perm x l : sort_insert cmp x l ≡ₚ x :: l.
Proof.
  induction l as [|y l IH]; simpl; [done|].
  destruct (cmp x y <=? 0); [done|].
  rewrite IH. apply perm_swap.
Qed.

Lemma stable_sort_perm l : stable_sort cmp l ≡ₚ l.
Proof.
  induction l as [|x l IH]; simpl; [done|].
  unfold stable_sort in *. simpl. rewrite sort_insert_perm. by rewrite IH.
Qed.


(** When the comparator is the difference of a numeric key, it is
    consistent and the result is ordered by that key, largest first. *)
Variable key : A → Z.




End Sorting.

(** The stable sort is one way to sort as the standard asks; the runtime
    of the examples sorts with it. *)
Lemma runtime_sorts_by_the_standard : @StandardSort MiniRuntime.runtime.
Proof. split; intros A cmp l; [apply stable_sort_perm | done]. Qed.

(** *** The [catch] blocks *)

(** What the [catch] block of an upload does: it sets the error status, or
    throws and sets nothing. *)
Lemma upload_failed_cases e w :
  (∃ err, upload_failed e w = (inl err, w)) ∨
  (∃ msg, upload_failed e w =
            (inr tt, with_transactionStatus (mkStatus true error msg) w)).
Proof.
  unfold upload_failed, lift, or_throw, throw, setTransactionStatus, update,
    mbind, js_bind, mret, js_ret.
  destruct (get_property e "message") as [m|]; [|left; eauto].
  destruct (includes_method m _) as [err|b]; [left; eauto | right; eauto].
Qed.

(** It sets the status when the caught value carries a message. *)
Lemma upload_failed_message e m w :
  get_property e "message" = Some (VStr m) →
  upload_failed e w =
  (inr tt,
   with_transactionStatus
     (mkStatus true error
        (if includes m "user rejected transaction"
         then "Transaction rejected by user"%string
         else ("Upload failed: " +:+ (if String.eqb m "" then "Unknown error" else m))%string))
     w).
Proof.
  intros Hm.
  unfold upload_failed, lift, or_throw, throw, setTransactionStatus, update,
    mbind, js_bind, mret, js_ret.
  rewrite Hm. simpl. destruct (includes m _); [done|]. by destruct m.
Qed.

(** It throws when the caught value has no message. *)
Lemma upload_failed_silent e w :
  get_property e "message" = Some VUndefined →
  ∃ err, upload_failed e w = (inl err, w).
Proof.
  intros Hm.
  unfold upload_failed, lift, or_throw, throw, setTransactionStatus, update,
    mbind, js_bind, mret, js_ret.
  rewrite Hm. simpl. eauto.
Qed.


Lemma process_failed_error m w :
  process_failed (js_error m) w =
  (inr tt,
   with_transactionStatus
     (mkStatus true error
        ("Analysis failed: " +:+ (if String.eqb m "" then "Unknown error" else m)))
     w).
Proof.
  unfold process_failed, lift, throw, setTransactionStatus, update,
    mbind, js_bind, mret, js_ret.
  simpl. by destruct m.
Qed.

(** From here on the [catch] blocks are used through these lemmas. *)
Opaque upload_failed process_failed.

Section ClientFacts.
Context `{Runtime} `{!StandardSort}.

Ltac js_unfold :=
  unfold ethers_toUtf8String, JSON_parse_, lift, or_throw, throw, try_catch,
    try_finally, console_error, alert, setGwasDatasets, setIsRefreshing,
    setLoading, setUploading, setTransactionStatus, update, getData, setData,
    mbind, js_bind, mret, js_ret in *.

Lemma getData_fails_false env k :
  getData_fails env k = false → getData_error env k = None.
Proof. unfold getData_fails. by destruct (getData_error env k). Qed.

Ltac case_failed :=
  match goal with
  | |- context [upload_failed ?e ?w0] =>
      destruct (upload_failed_cases e w0) as [[? ->] | [? ->]]; simpl
  end.

Lemma set_console_id w : set_console (console w ++ []) w = w.
Proof. destruct w. unfold set_console, with_console. simpl. by rewrite app_nil_r. Qed.

Lemma load_record_spec env key acc w :
  load_record env key acc w =
  (inr (acc ++ option_list (record_of env w key)),
   set_console (console w ++ record_log env w key) w).
Proof.
  unfold load_record, record_log, record_of, decode, getData_fails.
  js_unfold. cbv zeta.
  destruct (getData_error env _) eqn:Ef.
  { simpl. by rewrite app_nil_r. }
  destruct (0 <? length _)%nat eqn:El; simpl.
  2: { by rewrite app_nil_r, set_console_id. }
  destruct (toUtf8String _) as [s|]; simpl.
  2: { by rewrite app_nil_r. }
  destruct (JSON_parse s) as [dataset|]; simpl.
  2: { by rewrite app_nil_r. }
  destruct (get_property dataset "data") as [data|]; simpl.
  2: { by rewrite app_nil_r. }
  destruct (get_property dataset "timestamp") as [ts|]; simpl.
  2: { by rewrite app_nil_r. }
  destruct (get_property dataset "institution") as [inst|]; simpl.
  2: { by rewrite app_nil_r. }
  destruct (get_property dataset "studyType") as [study|]; simpl.
  2: { by rewrite app_nil_r. }
  destruct (get_property dataset "status") as [st|]; simpl.
  2: { by rewrite app_nil_r. }
  by rewrite set_console_id.
Qed.

Lemma load_loop_spec env items : ∀ acc w,
  for_of items (load_record env) acc w =
  (inr (acc ++ surviving env w items),
   set_console (console w ++ concat (map (record_log env w) items)) w).
Proof.
  induction items as [|key items IH]; intros acc w; simpl.
  { unfold mret, js_ret. by rewrite app_nil_r, set_console_id. }
  unfold mbind, js_bind. rewrite load_record_spec, IH.
  f_equal.
  - f_equal. rewrite <- app_assoc. f_equal.
    unfold surviving. simpl. change (record_of env (set_console _ w)) with (record_of env w).
    by destruct (record_of env w key).
  - unfold set_console, with_console. simpl. f_equal. by rewrite <- app_assoc.
Qed.

(** [loadDatasets] when the index is reached and can be walked. *)
Lemma loadDatasets_spec env w items :
  can_list env →
  iterate (keys_of (read w "gwas_keys")) = Some items →
  exec (loadDatasets env) w =
  mkWorld (chain w)
          (console w ++ index_log (read w "gwas_keys")
           ++ concat (map (record_log env w) items))
          (alerts w) (Array_sort by_timestamp_desc (surviving env w items))
          false false (uploading w) (transactionStatus w).
Proof.
  intros (Hc & Ha & Hf%getData_fails_false) Hit.
  unfold keys_of, index_value, index_log, index_value, decode in *.
  unfold exec, loadDatasets. js_unfold. simpl. rewrite Hc, Ha. simpl.
  rewrite Hf. simpl.
  change (read (with_isRefreshing true w) "gwas_keys") with (read w "gwas_keys").
  destruct (0 <? length (read w "gwas_keys"))%nat eqn:El.
  - destruct (toUtf8String _) as [s|]; simpl in *.
    + destruct (JSON_parse s) as [v|]; simpl in *.
      * rewrite Hit. simpl. rewrite load_loop_spec. reflexivity.
      * injection Hit as <-. reflexivity.
    + injection Hit as <-. reflexivity.
  - simpl in *. injection Hit as <-. simpl.
    unfold with_loading, with_isRefreshing, with_gwasDatasets. simpl.
    by rewrite app_nil_r.
Qed.


(** [loadDatasets] never throws, and touches neither the store nor the
    upload's part of the component state. *)
Lemma loadDatasets_frame env w :
  (loadDatasets env w).1 = inr tt ∧
  chain (loadDatasets env w).2 = chain w ∧
  alerts (loadDatasets env w).2 = alerts w ∧
  uploading (loadDatasets env w).2 = uploading w ∧
  transactionStatus (loadDatasets env w).2 = transactionStatus w.
Proof.
  unfold loadDatasets. js_unfold. simpl.
  destruct (readOnlyContract env); simpl; [|done].
  destruct (isAvailable env) as [[|]|]; simpl; try done.
  destruct (getData_error env _); simpl; [done|].
  destruct (0 <? length _)%nat; simpl.
  - destruct (toUtf8String _) as [s|]; simpl.
    + destruct (JSON_parse s) as [v|]; simpl; [|done].
      destruct (iterate v) as [items|]; simpl; [|done].
      rewrite load_loop_spec. done.
    + done.
  - done.
Qed.

Lemma loadDatasets_console_grows env w m :
  m ∈ console w → m ∈ console (exec (loadDatasets env) w).
Proof.
  intros Hin. unfold exec, loadDatasets. js_unfold. simpl.
  destruct (readOnlyContract env); simpl; [|done].
  destruct (isAvailable env) as [[|]|]; simpl; rewrite ?elem_of_app; try tauto.
  destruct (getData_error env _); simpl; rewrite ?elem_of_app; try tauto.
  destruct (0 <? length _)%nat; simpl.
  - destruct (toUtf8String _) as [s|]; simpl; rewrite ?elem_of_app; try tauto.
    destruct (JSON_parse s) as [v|]; simpl; rewrite ?elem_of_app; try tauto.
    destruct (iterate v) as [items|]; simpl; rewrite ?elem_of_app; try tauto.
    rewrite load_loop_spec. simpl. rewrite ?elem_of_app. tauto.
  - rewrite ?elem_of_app. tauto.
Qed.

(** The record key of an upload is never the index key. *)
Lemma dash_not_in_keys (a r : string) : a +:+ "-" +:+ r ≠ "keys"%string.
Proof.
  destruct a as [|c1 [|c2 [|c3 [|c4 [|c5 a]]]]]; simpl; intros [=].
Qed.

Lemma record_key_not_index env : "gwas_" +:+ datasetId_of env ≠ "gwas_keys"%string.
Proof.
  unfold datasetId_of. simpl. intros [= E]. by apply dash_not_in_keys in E.
Qed.

Lemma upload_spec env w b64 ks :
  can_upload env b64 →
  keys_of (read w "gwas_keys") = VArr ks →
  exec (uploadDataset env) w =
  with_uploading false (exec (loadDatasets env) (uploaded env w b64 ks)).
Proof.
  intros (Hp & Hb & Hs & Hw1 & Hg%getData_fails_false & Hw2) Hk.
  pose proof (record_key_not_index env) as Hne.
  unfold exec, uploadDataset. rewrite Hp. js_unfold. simpl.
  rewrite Hb, Hs. simpl. rewrite Hw1, Hg. simpl.
  assert (read (with_chain (insert ("gwas_" +:+ datasetId_of env)
              (toUtf8Bytes (JSON_stringify (datasetData_of env ("FHE-GWAS-" +:+ b64)))))
            (with_transactionStatus
               (mkStatus true pending "Encrypting genomic data with FHE...")
               (with_uploading true w))) "gwas_keys" = read w "gwas_keys") as Er.
  { unfold read. simpl. by rewrite lookup_insert_ne. }
  simpl in Er. rewrite Er. clear Er.
  unfold keys_of, index_value, decode in Hk.
  destruct (0 <? length (read w "gwas_keys"))%nat eqn:El; simpl in *.
  - destruct (toUtf8String (read w "gwas_keys")) as [s|] eqn:Eu; simpl in *.
    + destruct (JSON_parse s) as [v|] eqn:Ej; simpl in *.
      * subst v. simpl. rewrite Hw2. simpl.
        match goal with |- context [loadDatasets env ?x] =>
          destruct (loadDatasets_frame env x) as (E & _);
          destruct (loadDatasets env x) as [r w'] eqn:El' end.
        simpl in E. subst r. simpl.
        match type of El' with loadDatasets env ?x = _ =>
          assert (x = uploaded env w b64 ks) as Ex end.
        { unfold uploaded, upload_log, index_value, decode. rewrite El, Eu. simpl.
          rewrite Ej. simpl. unfold with_transactionStatus, with_chain, with_uploading.
          simpl. by rewrite app_nil_r. }
        rewrite Ex in El'. unfold exec. rewrite El'. done.
      * injection Hk as <-. simpl. rewrite Hw2. simpl.
        match goal with |- context [loadDatasets env ?x] =>
          destruct (loadDatasets_frame env x) as (E & _);
          destruct (loadDatasets env x) as [r w'] eqn:El' end.
        simpl in E. subst r. simpl.
        match type of El' with loadDatasets env ?x = _ =>
          assert (x = uploaded env w b64 []) as Ex end.
        { unfold uploaded, upload_log, index_value, decode. rewrite El, Eu. simpl.
          rewrite Ej. simpl. done. }
        rewrite Ex in El'. unfold exec. rewrite El'. done.
    + injection Hk as <-. simpl. rewrite Hw2. simpl.
      match goal with |- context [loadDatasets env ?x] =>
        destruct (loadDatasets_frame env x) as (E & _);
        destruct (loadDatasets env x) as [r w'] eqn:El' end.
      simpl in E. subst r. simpl.
      match type of El' with loadDatasets env ?x = _ =>
        assert (x = uploaded env w b64 []) as Ex end.
      { unfold uploaded, upload_log, index_value, decode. rewrite El, Eu. simpl. done. }
      rewrite Ex in El'. unfold exec. rewrite El'. done.
  - injection Hk as <-. simpl. rewrite Hw2. simpl.
    match goal with |- context [loadDatasets env ?x] =>
      destruct (loadDatasets_frame env x) as (E & _);
      destruct (loadDatasets env x) as [r w'] eqn:El' end.
    simpl in E. subst r. simpl.
    match type of El' with loadDatasets env ?x = _ =>
      assert (x = uploaded env w b64 []) as Ex end.
    { unfold uploaded, upload_log, index_value, decode. rewrite El. simpl.
      unfold with_transactionStatus, with_chain, with_uploading.
      simpl. by rewrite app_nil_r. }
    rewrite Ex in El'. unfold exec. rewrite El'. done.
Qed.



Lemma record_of_chain env w1 w2 key :
  chain w1 = chain w2 → record_of env w1 key = record_of env w2 key.
Proof. intros E. unfold record_of, read. by rewrite E. Qed.

Lemma surviving_chain env w1 w2 items :
  chain w1 = chain w2 → surviving env w1 items = surviving env w2 items.
Proof.
  intros E. unfold surviving.
  induction items as [|k items IH]; csimpl; [done|].
  rewrite (record_of_chain env w1 w2 k E). by rewrite IH.
Qed.

Lemma record_of_id env w key d : record_of env w key = Some d → id d = key.
Proof.
  unfold record_of. cbv zeta.
  destruct (getData_fails _ _); [done|]. destruct (0 <? _)%nat; [|done].
  destruct (decode _) as [v|]; simpl; [|done].
  repeat (match goal with |- context [get_property v ?k] =>
            destruct (get_property v k); simpl; [|done] end).
  by intros [= <-].
Qed.

Lemma chain_after_upload env w b64 ks :
  can_upload env b64 → keys_of (read w "gwas_keys") = VArr ks →
  chain (exec (uploadDataset env) w) = chain (uploaded env w b64 ks).
Proof.
  intros Hu Hk. rewrite (upload_spec env w b64 ks Hu Hk). simpl.
  apply loadDatasets_frame.
Qed.






(** ** The claims about the client *)



(** C10. When the stored index is not empty and does not parse, an upload
    whose two writes are accepted still reports success; the index it
    writes back holds the new identifier and nothing else; every other
    stored value, the records of the datasets indexed before among them,
    is left as it was; the parse error goes to the console; and a later
    listing that reads the index back shows no record but that of the new
    identifier. *)
Theorem C10_unparseable_index_is_replaced env w b64 :
  can_upload env b64 →
  index_value (read w "gwas_keys") = None →
  let w' := exec (uploadDataset env) w in
  let newId := datasetId_of env in
  tx_status (transactionStatus w') = success ∧
  read w' "gwas_keys" = toUtf8Bytes (JSON_stringify (VArr [VStr newId])) ∧
  (∀ k, k ≠ "gwas_keys"%string → k ≠ ("gwas_" +:+ newId)%string →
        read w' k = read w k) ∧
  "Error parsing keys:"%string ∈ console w' ∧
  (∀ env', can_list env' → reads_back (VArr [VStr newId]) →
     ∀ d, d ∈ gwasDatasets (exec (loadDatasets env') w') → id d = VStr newId).
Proof.
  intros Hu Hnone w' newId.
  assert (keys_of (read w "gwas_keys") = VArr []) as Hk
    by (unfold keys_of; by rewrite Hnone).
  pose proof (chain_after_upload env w b64 [] Hu Hk) as Hchain. fold w' in Hchain.
  pose proof (upload_spec env w b64 [] Hu Hk) as Hspec. fold w' in Hspec.
  destruct (loadDatasets_frame env (uploaded env w b64 [])) as (_ & _ & _ & _ & Hts).
  assert (read w' "gwas_keys" = toUtf8Bytes (JSON_stringify (VArr [VStr newId]))) as Hidx.
  { unfold read. rewrite Hchain. simpl. by rewrite lookup_insert_eq. }
  split; [|split; [|split; [|split]]].
  - rewrite Hspec. simpl. unfold exec. by rewrite Hts.
  - exact Hidx.
  - intros k Hk1 Hk2. unfold read. rewrite Hchain. simpl.
    by rewrite !lookup_insert_ne.
  - rewrite Hspec. simpl.
    assert ("Error parsing keys:"%string ∈ console (uploaded env w b64 [])) as Hin.
    { simpl. unfold upload_log. rewrite Hnone.
      apply elem_of_app. right. apply list_elem_of_here. }
    by apply loadDatasets_console_grows.
  - intros env' Hcan [Hl Hd] d.
    assert (iterate (keys_of (read w' "gwas_keys")) = Some [VStr newId]) as Hit.
    { unfold keys_of, index_value. rewrite Hidx.
      apply Nat.ltb_lt in Hl. rewrite Hl, Hd. done. }
    rewrite (loadDatasets_spec env' w' _ Hcan Hit). cbn [gwasDatasets].
    rewrite sort_rearranges. unfold surviving. rewrite list_elem_of_omap.
    intros (key & Hkey & Hrec). apply list_elem_of_singleton in Hkey as ->.
    by apply record_of_id in Hrec.
Qed.

End ClientFacts.

(** ** The client claims on concrete stores *)

Section ClientExamples.
Import MiniRuntime.
#[local] Existing Instance runtime.
#[local] Existing Instance runtime_sorts_by_the_standard.

(** The lab's calls all go through. *)
Lemma lab_can_list : can_list lab.
Proof. repeat split. Qed.

Lemma lab_can_upload : can_upload lab lab_payload.
Proof. repeat split. Qed.

(** A list in descending order of timestamp, if it has two records or more,
    has a number as the timestamp of each. *)
Lemma sorted_has_timestamps l :
  StronglySorted not_older l → (2 ≤ length l)%nat → Forall numeric_timestamp l.
Proof.
  intros Hs Hl. destruct Hs as [|x l Hs Hall]; [constructor|].
  destruct l as [|y l]; [simpl in Hl; lia|].
  constructor.
  - inversion Hall as [|? ? (a & b & Ha & _) _]; subst. by exists a.
  - eapply Forall_impl; [exact Hall|]. intros z (a & b & _ & Hb & _). by exists b.
Qed.

(** The store of three records whose second has no timestamp, listed by
    an engine that sorts in any way whatever: the result holds the three
    records in some order, and no order of them is the descending order of
    timestamps. *)
Lemma undated_store_in_any_order
    (sort : ∀ A : Type, (A → A → Z) → list A → list A) :
  (∀ A (cmp : A → A → Z) l, sort A cmp l ≡ₚ l) →
  ¬ StronglySorted not_older
      (gwasDatasets (exec (@loadDatasets (runtime_sorting sort) lab) undated_store)).
Proof.
  intros Hperm Hs.
  rewrite (@loadDatasets_spec (runtime_sorting sort) lab undated_store
             [VStr "a"; VStr "b"; VStr "c"] lab_can_list) in Hs
    by (vm_compute; reflexivity).
  cbn [gwasDatasets] in Hs.
  assert (@surviving (runtime_sorting sort) lab undated_store
            [VStr "a"; VStr "b"; VStr "c"]
          = [mkGwasData (VStr "a") VUndefined (VNum 1) VUndefined VUndefined (VStr "pending");
             mkGwasData (VStr "b") VUndefined VUndefined VUndefined VUndefined (VStr "pending");
             mkGwasData (VStr "c") VUndefined (VNum 3) VUndefined VUndefined (VStr "pending")])
    as E by (vm_compute; reflexivity).
  rewrite E in Hs. clear E.
  match type of Hs with StronglySorted _ ?l =>
    pose proof (Hperm _ (@by_timestamp_desc (runtime_sorting sort))
                  [mkGwasData (VStr "a") VUndefined (VNum 1) VUndefined VUndefined (VStr "pending");
                   mkGwasData (VStr "b") VUndefined VUndefined VUndefined VUndefined (VStr "pending");
                   mkGwasData (VStr "c") VUndefined (VNum 3) VUndefined VUndefined (VStr "pending")])
      as Hl;
    apply sorted_has_timestamps in Hs
  end.
  - rewrite Forall_forall in Hs.
    destruct (Hs (mkGwasData (VStr "b") VUndefined VUndefined VUndefined VUndefined
                             (VStr "pending"))) as [n Hn]; [|discriminate Hn].
    rewrite Hl. apply list_elem_of_further, list_elem_of_here.
  - apply Permutation_length in Hl. cbn [Array_sort runtime_sorting]. rewrite Hl.
    simpl. lia.
Qed.




(** C10 for the lab's upload into a store whose index is not JSON: the
    index becomes the new identifier alone, the old record stays stored and
    is no longer listed. *)
Lemma C10_witness :
  tx_status (transactionStatus (exec (uploadDataset lab) corrupt_index)) = success ∧
  read (exec (uploadDataset lab) corrupt_index) "gwas_keys"
    = toUtf8Bytes (JSON_stringify (VArr [VStr (datasetId_of lab)])) ∧
  read (exec (uploadDataset lab) corrupt_index) "gwas_old"
    = read corrupt_index "gwas_old" ∧
  map id (gwasDatasets (exec (uploadDataset lab) corrupt_index))
    = [VStr (datasetId_of lab)].
Proof.
  destruct (C10_unparseable_index_is_replaced lab corrupt_index lab_payload)
    as (H1 & H2 & H3 & _).
  { exact lab_can_upload. }
  { vm_compute. reflexivity. }
  split; [exact H1|]. split; [exact H2|]. split.
  - apply H3; vm_compute; discriminate.
  - vm_compute. reflexivity.
Defined.

End ClientExamples.
End ClientProofs.

(* ===================================================================== *)
(** * Part V: further properties of the ledger                            *)
(* ===================================================================== *)

Module LedgerExtras.
Import Ledger LedgerProofs.

Section MoreLedgerFacts.
Context `{FHE}.

(** *** One transaction, part by part *)

Lemma result_at_submit s n d k :
  result_at (set_result n (mkResult (asEuint32 0) (asEuint32 0) false)
               (set_dataset n d (set_datasetCount n s))) k =
  if decide (n = k) then mkResult (asEuint32 0) (asEuint32 0) false
  else result_at s k.
Proof. rewrite result_at_set_result. by destruct (decide _). Qed.

Lemma blank_init : blank_outside_count init.
Proof.
  intros k _. unfold dataset_at, result_at. simpl. by rewrite !lookup_empty.
Qed.

Lemma blank_transact s env c :
  msg_sender env ≠ 0 → within_count s → blank_outside_count s →
  blank_outside_count (transact s (env, c)).
Proof.
  intros Hsender (H0 & Hd & Hr) Hb.
  destruct (transact_cases s env c)
    as [E | [(g & p & _ & _ & E) | [(d & _ & _ & E) | (r & cl & p & g & ph & _ & Hne & _ & E)]]];
    rewrite E; clear E; try done.
  - cbv zeta. intros k Hk. simpl in Hk.
    rewrite dataset_at_submit, result_at_submit.
    destruct (decide _); [lia|]. apply Hb. lia.
  - intros k Hk. change (datasetCount (analysed _ _ _ s)) with (datasetCount s) in Hk.
    rewrite result_at_analysed.
    destruct (decide _) as [Heq|].
    + specialize (Hr r Hne). lia.
    + by apply Hb.
Qed.

Lemma blank_run t : ∀ s,
  sent_by_accounts t → within_count s → blank_outside_count s →
  within_count (run s t) ∧ blank_outside_count (run s t).
Proof.
  induction t as [|[env c] t IH]; intros s Ht Hw Hb; simpl; [done|].
  inversion Ht; subst. apply IH; [done| |].
  - by apply within_count_transact.
  - by apply blank_transact.
Qed.

Lemma reachable_tidy t :
  sent_by_accounts t →
  within_count (run init t) ∧ blank_outside_count (run init t).
Proof. intros Ht. apply blank_run; [done | apply within_count_init | apply blank_init]. Qed.

(** *** Properties *)

(** X1. A stored dataset never changes: whatever is stored under an
    identifier not above the counter is still there, unchanged, after any
    further transactions. *)
Theorem X1_datasets_are_immutable s t k :
  k ≤ datasetCount s → dataset_at (run s t) k = dataset_at s k.
Proof. apply run_dataset_kept. Qed.

(** X2. The record a successful submission stores is owned by the caller:
    under the identifier it announces, after any further transactions,
    stands the record with that identifier, the two submitted handles,
    the caller as institution and the block's timestamp. *)
Theorem X2_submitter_owns_dataset s env g p s' evs t :
  call env (SubmitEncryptedDataset g p) s = inr (s', evs) →
  let k := datasetCount s + 1 in
  evs = [DatasetSubmitted k (msg_sender env)] ∧
  dataset_at (run s' t) k = mkData k g p (msg_sender env) (block_timestamp env).
Proof.
  rewrite call_submit. destruct (_ <=? _); [|done].
  cbv zeta. intros [= <- <-]. split; [done|].
  rewrite run_dataset_kept by (simpl; lia).
  rewrite dataset_at_submit. by rewrite decide_True.
Qed.

(** X3. In a state reached by transactions of accounts, an identifier that
    was never handed out reads as nothing: its dataset is the zero record
    and [getAnalysisResult] returns zero handles and an unset flag. *)
Theorem X3_unknown_dataset_reads_zero t k :
  sent_by_accounts t →
  ¬ (1 ≤ k ≤ datasetCount (run init t)) →
  dataset_at (run init t) k = zeroData ∧
  getAnalysisResult (run init t) k = (0, 0, false).
Proof.
  intros Ht Hk. destruct (reachable_tidy t Ht) as [_ Hb].
  destruct (Hb k Hk) as [Hd Hr]. split; [done|].
  unfold getAnalysisResult. by rewrite Hr.
Qed.

(** X4. In a state reached by transactions of accounts, every account is
    refused both requests on an identifier that was never handed out. *)
Theorem X4_unknown_dataset_requests_refused t k env :
  sent_by_accounts t → msg_sender env ≠ 0 →
  ¬ (1 ≤ k ≤ datasetCount (run init t)) →
  call env (RequestGWASAnalysis k) (run init t) = inl (Revert "Not authorized") ∧
  call env (RequestResultDecryption k) (run init t) = inl (Revert "Not authorized").
Proof.
  intros Ht Hs Hk. destruct (reachable_tidy t Ht) as [_ Hb].
  destruct (Hb k Hk) as [Hd _].
  rewrite call_requestGWASAnalysis, call_requestResultDecryption, Hd. simpl.
  destruct (msg_sender env =? 0) eqn:E; [lia | done].
Qed.

(** One transaction sets the flag of a dataset only with the event. *)
Lemma transact_flag_set s ec d :
  isRevealed (result_at (transact s ec) d) = true →
  isRevealed (result_at s d) = true ∨ ResultDecrypted d ∈ events_of s ec.
Proof.
  destruct ec as [env c]. unfold transact, events_of. cbn [fst snd].
  destruct c.
  - rewrite call_submit. destruct (_ <=? _); [|by left].
    cbv beta iota zeta. rewrite result_at_submit. destruct (decide _); [done | by left].
  - rewrite call_requestGWASAnalysis.
    destruct (_ =? _); [|by left]. destruct (isRevealed (result_at s datasetId)); by left.
  - rewrite call_performAnalysis. cbv zeta.
    destruct (_ =? 0); [by left|].
    destruct (isRevealed (result_at s (request_at s requestId))) eqn:Er; [by left|].
    destruct (checkSignatures _ _ _); [|by left].
    destruct (abi_decode_uint32_array _) as [[|g [|ph vs]]|]; try by left.
    destruct (g + ph <=? _); [|by left]. destruct (g * ph <=? _); [|by left].
    cbv beta iota zeta.
    rewrite result_at_analysed. destruct (decide _) as [<-|]; [|by left].
    intros _. right. apply list_elem_of_here.
  - rewrite call_requestResultDecryption.
    destruct (_ =? _); [|by left]. destruct (isRevealed (result_at s datasetId)); by left.
  - rewrite call_decryptFinalResults. destruct (_ =? 0); [by left|].
    destruct (checkSignatures _ _ _); [|by left].
    destruct (abi_decode_uint32_array _); by left.
Qed.

Lemma run_flag_set t : ∀ s d,
  isRevealed (result_at (run s t) d) = true →
  isRevealed (result_at s d) = true ∨ ResultDecrypted d ∈ run_events s t.
Proof.
  induction t as [|ec t IH]; intros s d Hf; simpl in *; [by left|].
  destruct (IH _ _ Hf) as [Hs | He].
  - destruct (transact_flag_set s ec d Hs) as [? | ?]; [by left|].
    right. apply elem_of_app. by left.
  - right. apply elem_of_app. by right.
Qed.

(** X5. A dataset is flagged as analysed only by a completed callback: in
    every state reached from deployment, a set [isRevealed] flag means a
    [ResultDecrypted] event for that dataset was emitted on the way. *)
Theorem X5_flag_set_only_by_callback t d :
  isRevealed (result_at (run init t) d) = true →
  ResultDecrypted d ∈ run_events init t.
Proof.
  intros Hf. destruct (run_flag_set t init d Hf) as [Hi | ?]; [|done].
  unfold result_at in Hi. simpl in Hi. by rewrite lookup_empty in Hi.
Qed.

(** X6. Analysis is final: in a state reached by transactions of accounts,
    the analysis record of a dataset whose flag is set stays exactly as it
    is through any further transactions; the flag is never reset and the
    stored statistics are never replaced. *)
Theorem X6_analysis_is_final t1 t2 d :
  sent_by_accounts t1 →
  isRevealed (result_at (run init t1) d) = true →
  getAnalysisResult (run init (t1 ++ t2)) d = getAnalysisResult (run init t1) d.
Proof.
  intros Ht Hf. destruct (reachable_tidy t1 Ht) as [_ Hb].
  assert (1 ≤ d ≤ datasetCount (run init t1)) as Hd.
  { destruct (decide (1 ≤ d ≤ datasetCount (run init t1))) as [|Hn]; [done|].
    destruct (Hb d Hn) as [_ Hz]. by rewrite Hz in Hf. }
  unfold getAnalysisResult. rewrite run_app.
  by rewrite (analysed_frozen t2 (run init t1) d Hd Hf).
Qed.

(** X7. The whole path of one dataset. From any state reached from
    deployment, a submission, the owner's analysis request and the
    oracle's callback with an accepted proof and two values whose sum and
    product fit in 32 bits leave the dataset analysed with exactly these
    statistics and emit the three events in order. Before the callback the
    result reads as zero placeholders and the owner's reveal request is
    refused; after it the owner's reveal request is accepted and a new
    analysis request is refused. *)
Theorem X7_lifecycle t e1 e2 e3 g p c proof gv pv rest :
  let s0 := run init t in
  let k := datasetCount s0 + 1 in
  let r := oracle_request_id e2 in
  let s1 := transact s0 (e1, SubmitEncryptedDataset g p) in
  let s2 := transact s1 (e2, RequestGWASAnalysis k) in
  let s3 := transact s2 (e3, PerformAnalysis r c proof) in
  k ≤ uint256_max →
  msg_sender e2 = msg_sender e1 →
  checkSignatures r c proof = true →
  abi_decode_uint32_array c = Some (gv :: pv :: rest) →
  gv + pv ≤ uint32_max → gv * pv ≤ uint32_max →
  getAnalysisResult s1 k = (asEuint32 0, asEuint32 0, false) ∧
  call e2 (RequestResultDecryption k) s1 = inl (Revert "Analysis not complete") ∧
  getAnalysisResult s2 k = (asEuint32 0, asEuint32 0, false) ∧
  getAnalysisResult s3 k = (asEuint32 (gv + pv), asEuint32 (gv * pv), true) ∧
  run_events s0 [(e1, SubmitEncryptedDataset g p); (e2, RequestGWASAnalysis k);
                 (e3, PerformAnalysis r c proof)]
    = [DatasetSubmitted k (msg_sender e1); AnalysisRequested k; ResultDecrypted k] ∧
  call e2 (RequestGWASAnalysis k) s3 = inl (Revert "Already analyzed") ∧
  call e2 (RequestResultDecryption k) s3 = inr (set_request r k s3, []).
Proof.
  intros s0 k r s1 s2 s3 Hk Hown Hsig Hdec Hadd Hmul.
  pose proof (run_count_nonneg t) as H0. fold s0 in H0.
  set (d1 := mkData k g p (msg_sender e1) (block_timestamp e1)).
  set (s1' := set_result k (mkResult (asEuint32 0) (asEuint32 0) false)
                (set_dataset k d1 (set_datasetCount k s0))).
  assert (call e1 (SubmitEncryptedDataset g p) s0
          = inr (s1', [DatasetSubmitted k (msg_sender e1)])) as C1.
  { rewrite call_submit. fold k. destruct (k <=? uint256_max) eqn:E; [done | lia]. }
  assert (s1 = s1') as E1 by (unfold s1, transact; cbn [fst snd]; by rewrite C1).
  assert (dataset_at s1 k = d1) as D1.
  { rewrite E1. unfold s1'. rewrite dataset_at_submit. by rewrite decide_True. }
  assert (result_at s1 k = mkResult (asEuint32 0) (asEuint32 0) false) as R1.
  { rewrite E1. unfold s1'. rewrite result_at_submit. by rewrite decide_True. }
  assert (call e2 (RequestGWASAnalysis k) s1
          = inr (set_request r k s1, [AnalysisRequested k])) as C2.
  { rewrite call_requestGWASAnalysis, D1, R1. simpl. rewrite Hown.
    by rewrite Z.eqb_refl. }
  assert (s2 = set_request r k s1) as E2
    by (unfold s2, transact; cbn [fst snd]; by rewrite C2).
  assert (request_at s2 r = k) as Q2.
  { rewrite E2, request_at_set_request. by rewrite decide_True. }
  assert (result_at s2 k = mkResult (asEuint32 0) (asEuint32 0) false) as R2
    by (rewrite E2; exact R1).
  assert (call e3 (PerformAnalysis r c proof) s2
          = inr (analysed k gv pv s2, [ResultDecrypted k])) as C3.
  { rewrite call_performAnalysis. cbv zeta. rewrite Q2, R2, Hsig, Hdec. simpl.
    destruct (k =? 0) eqn:Ek; [lia|].
    destruct (gv + pv <=? uint32_max) eqn:Ea; [|lia].
    destruct (gv * pv <=? uint32_max) eqn:Em; [done | lia]. }
  assert (s3 = analysed k gv pv s2) as E3
    by (unfold s3, transact; cbn [fst snd]; by rewrite C3).
  assert (result_at s3 k = mkResult (asEuint32 (gv + pv)) (asEuint32 (gv * pv)) true) as R3.
  { rewrite E3, result_at_analysed. by rewrite decide_True. }
  assert (dataset_at s3 k = d1) as D3 by (rewrite E3, E2; exact D1).
  repeat split.
  - unfold getAnalysisResult. by rewrite R1.
  - rewrite call_requestResultDecryption, D1, R1. simpl. rewrite Hown.
    by rewrite Z.eqb_refl.
  - unfold getAnalysisResult. by rewrite R2.
  - unfold getAnalysisResult. by rewrite R3.
  - simpl. unfold events_of. cbn [fst snd]. fold s1. fold s2.
    by rewrite C1, C2, C3.
  - rewrite call_requestGWASAnalysis, D3, R3. simpl. rewrite Hown.
    by rewrite Z.eqb_refl.
  - rewrite call_requestResultDecryption, D3, R3. simpl. rewrite Hown.
    by rewrite Z.eqb_refl.
Qed.

(** X8. A successful request writes one correlation entry and nothing
    else: every dataset and every analysis result reads as before, so the
    dataset stays pending until the callback. And the entry does not
    record the stage it was written for: the identifier of an analysis
    request is accepted by [decryptFinalResults] as well. *)
Theorem X8_request_writes_one_entry env d s s' evs :
  d ≠ 0 →
  call env (RequestGWASAnalysis d) s = inr (s', evs) →
  let r := oracle_request_id env in
  datasetCount s' = datasetCount s ∧
  (∀ k, dataset_at s' k = dataset_at s k ∧
        getAnalysisResult s' k = getAnalysisResult s k) ∧
  request_at s' r = d ∧
  (∀ r', r' ≠ r → request_at s' r' = request_at s r') ∧
  (∀ env' c p, checkSignatures r c p = true →
     is_Some (abi_decode_uint32_array c) →
     call env' (DecryptFinalResults r c p) s' = inr (s', [])).
Proof.
  intros Hd. rewrite call_requestGWASAnalysis.
  destruct (_ =? _); [|done]. destruct (isRevealed _); [done|].
  intros [= <- <-]. cbv zeta. set (r := oracle_request_id env).
  assert (request_at (set_request r d s) r = d) as Hr
    by (rewrite request_at_set_request; by rewrite decide_True).
  split; [done|]. split; [done|]. split; [done|]. split.
  - intros r' Hne. rewrite request_at_set_request. by rewrite decide_False.
  - intros env' c p Hsig [vs Hvs]. rewrite call_decryptFinalResults, Hr, Hsig, Hvs.
    destruct (d =? 0) eqn:E; [lia | done].
Qed.

(** X9. A successful [performAnalysis] changes the analysis record of the
    dataset its request resolves to and nothing else: the counter, every
    dataset, every correlation entry and every other analysis record stay
    as they were, and of the contract's own events it emits exactly one,
    [ResultDecrypted] for that dataset. *)
Theorem X9_callback_touches_one_record env r c p s s' evs :
  call env (PerformAnalysis r c p) s = inr (s', evs) →
  let d := request_at s r in
  d ≠ 0 ∧ evs = [ResultDecrypted d] ∧
  datasetCount s' = datasetCount s ∧
  (∀ k, dataset_at s' k = dataset_at s k) ∧
  (∀ q, request_at s' q = request_at s q) ∧
  (∀ k, k ≠ d → getAnalysisResult s' k = getAnalysisResult s k).
Proof.
  rewrite call_performAnalysis. cbv zeta.
  destruct (_ =? 0) eqn:E0; [done|]. destruct (isRevealed _); [done|].
  destruct (checkSignatures _ _ _); [|done].
  destruct (abi_decode_uint32_array c) as [[|g [|ph vs]]|]; try done.
  destruct (g + ph <=? _); [|done]. destruct (g * ph <=? _); [|done].
  intros [= <- <-]. split; [lia|]. repeat split.
  intros k Hk. unfold getAnalysisResult. rewrite result_at_analysed.
  by rewrite decide_False.
Qed.

End MoreLedgerFacts.

(** *** The cleartext encoding *)

Lemma byte_of_Z_value z : Z.of_N (Byte.to_N (byte_of_Z z)) = z mod 256.
Proof.
  unfold byte_of_Z.
  assert (0 ≤ z mod 256 < 256) as Hm by (apply Z.mod_pos_bound; lia).
  destruct (Byte.of_N (Z.to_N (z mod 256))) as [b|] eqn:E; simpl.
  - apply Byte.to_of_N in E. rewrite E. lia.
  - apply Byte.of_N_None_iff in E. lia.
Qed.

Lemma be_value_snoc l b : be_value (l ++ [b]) = be_value l * 256 + Z.of_N (Byte.to_N b).
Proof. unfold be_value. by rewrite fold_left_app. Qed.

Lemma be_bytes_length n : ∀ z, length (be_bytes n z) = n.
Proof.
  induction n as [|n IH]; intros z; simpl; [done|].
  rewrite length_app, IH. simpl. lia.
Qed.

Lemma be_value_be_bytes n : ∀ z, 0 ≤ z → be_value (be_bytes n z) = z mod 256 ^ Z.of_nat n.
Proof.
  induction n as [|n IH]; intros z Hz.
  { simpl. by rewrite Z.mod_1_r. }
  cbn [be_bytes]. rewrite be_value_snoc, byte_of_Z_value.
  rewrite IH by (apply Z.div_pos; lia).
  rewrite Nat2Z.inj_succ, Z.pow_succ_r by lia.
  rewrite Z.rem_mul_r by lia. lia.
Qed.

Lemma word_at_here pre post z :
  0 ≤ z < 2 ^ 256 →
  word_at (pre ++ be_bytes 32 z ++ post) (Z.of_nat (length pre)) = Some z.
Proof.
  intros Hz. unfold word_at.
  rewrite !length_app, be_bytes_length.
  destruct (_ && _) eqn:E.
  - f_equal. rewrite Nat2Z.id, drop_app_length.
    rewrite take_app_length' by (by rewrite be_bytes_length).
    rewrite be_value_be_bytes by lia. apply Z.mod_small.
    replace (256 ^ Z.of_nat 32) with (2 ^ 256) by reflexivity. exact Hz.
  - apply andb_false_iff in E as [E | E]; apply Z.leb_gt in E; lia.
Qed.

Lemma uint32_words_encoded vs : ∀ pre,
  Forall (λ v, 0 ≤ v ≤ uint32_max) vs →
  uint32_words (pre ++ concat (map (be_bytes 32) vs))
               (Z.of_nat (length pre)) (length vs) = Some vs.
Proof.
  induction vs as [|v vs IH]; intros pre Hr; [done|].
  inversion Hr as [|? ? Hv Hr']; subst.
  cbn [map concat length uint32_words].
  rewrite word_at_here by (unfold uint32_max in Hv; lia).
  cbn [mbind option_bind].
  destruct (v <=? uint32_max) eqn:E; [|lia].
  replace (Z.of_nat (length pre) + 32) with (Z.of_nat (length (pre ++ be_bytes 32 v)))
    by (rewrite length_app, be_bytes_length; lia).
  rewrite (app_assoc pre). rewrite IH by done. done.
Qed.

(** X10. Decoding undoes encoding: the ABI encoding of an array of
    [uint32] values decodes to that array. *)
Theorem X10_abi_round_trip vs :
  Forall (λ v, 0 ≤ v ≤ uint32_max) vs →
  Z.of_nat (length vs) < 2 ^ 256 →
  abi_decode_uint32_array (abi_encode_uint32_array vs) = Some vs.
Proof.
  intros Hr Hlen. unfold abi_decode_uint32_array, abi_encode_uint32_array.
  set (len := be_bytes 32 (Z.of_nat (length vs))).
  set (body := concat (map (be_bytes 32) vs)).
  assert (word_at (be_bytes 32 32 ++ len ++ body) 0 = Some 32) as E0
    by (apply (word_at_here [] (len ++ body) 32); lia).
  assert (word_at (be_bytes 32 32 ++ len ++ body) 32 = Some (Z.of_nat (length vs))) as E1.
  { replace 32 with (Z.of_nat (length (be_bytes 32 32))) at 2
      by (by rewrite be_bytes_length).
    apply word_at_here. lia. }
  rewrite E0. cbn [mbind option_bind]. rewrite E1. cbn [mbind option_bind].
  assert (length body = (32 * length vs)%nat) as Hc.
  { unfold body. clear. induction vs as [|v vs IH]; [done|].
    cbn [map concat]. rewrite length_app, be_bytes_length, IH. simpl length. lia. }
  rewrite !length_app, Hc. unfold len at 1. rewrite !be_bytes_length.
  destruct (_ <=? _) eqn:E; [|apply Z.leb_gt in E; lia].
  rewrite Nat2Z.id, (app_assoc (be_bytes 32 32)).
  replace (32 + 32) with (Z.of_nat (length (be_bytes 32 32 ++ len)))
    by (unfold len; rewrite length_app, !be_bytes_length; lia).
  by apply uint32_words_encoded.
Qed.

Lemma uint32_words_length data n : ∀ off vs,
  uint32_words data off n = Some vs → length vs = n.
Proof.
  induction n as [|n IH]; intros off vs; simpl.
  { by intros [= <-]. }
  destruct (word_at data off) as [w|]; simpl; [|done].
  destruct (w <=? uint32_max); [|done].
  destruct (uint32_words data (off + 32) n) as [ws|] eqn:E; simpl; [|done].
  intros [= <-]. simpl. f_equal. by eapply IH.
Qed.

(** X11. What decodes is well formed: every decoded value is a [uint32],
    and a cleartext that decodes to [n] values is at least 32 (n + 1)
    bytes long. So [performAnalysis], which reads two values, never
    succeeds on a cleartext shorter than 96 bytes. *)
Theorem X11_decoded_cleartext_is_bounded `{FHE} c vs :
  abi_decode_uint32_array c = Some vs →
  Forall (λ v, 0 ≤ v ≤ uint32_max) vs ∧
  32 * (Z.of_nat (length vs) + 1) ≤ Z.of_nat (length c) ∧
  (Z.of_nat (length c) < 96 →
   ∀ env r p s, ∃ e, call env (PerformAnalysis r c p) s = inl e).
Proof.
  intros Hdec. split; [by eapply abi_decode_range|].
  assert (32 * (Z.of_nat (length vs) + 1) ≤ Z.of_nat (length c)) as Hlen.
  { unfold abi_decode_uint32_array in Hdec.
    destruct (word_at c 0) as [off|] eqn:E0; simpl in Hdec; [|done].
    destruct (word_at c off) as [len|] eqn:E1; simpl in Hdec; [|done].
    destruct (_ <=? _) eqn:E2; [|done].
    apply uint32_words_length in Hdec.
    pose proof (word_at_nonneg _ _ _ E1) as Hl.
    unfold word_at in E1. destruct (_ && _) eqn:E3; [|done].
    apply andb_true_iff in E3 as [E3 _]. lia. }
  split; [done|]. intros Hshort env r p s.
  rewrite call_performAnalysis. cbv zeta. rewrite Hdec.
  destruct (_ =? 0); [eauto|]. destruct (isRevealed _); [eauto|].
  destruct (checkSignatures _ _ _); [|eauto].
  destruct vs as [|g [|ph vs]]; [eauto | eauto |].
  simpl in Hlen. lia.
Qed.

(** *** The properties on concrete traces *)

Section MoreLedgerExamples.
#[local] Existing Instance clear_fhe.

(** X1: Alice's dataset after the analysed trace is the one stored by
    the first call. *)
Lemma X1_witness :
  dataset_at (run (run init requested_trace)
                  [completion; (from bob 0, SubmitEncryptedDataset 7 8)]) 1
  = dataset_at (run init requested_trace) 1.
Proof. apply X1_datasets_are_immutable. vm_compute. discriminate. Defined.

(** X2: Bob's submission after the analysed trace gets identifier 2 and
    stays his through a later request. *)
Lemma X2_witness :
  dataset_at (run (transact (run init analysed_trace)
                            (from bob 0, SubmitEncryptedDataset 7 8))
                  [(from bob 3, RequestGWASAnalysis 2)]) 2
  = mkData 2 7 8 bob 1700000000.
Proof.
  destruct (X2_submitter_owns_dataset (run init analysed_trace) (from bob 0) 7 8
              (transact (run init analysed_trace) (from bob 0, SubmitEncryptedDataset 7 8))
              [DatasetSubmitted 2 bob] [(from bob 3, RequestGWASAnalysis 2)])
    as [_ W].
  { vm_compute. reflexivity. }
  exact W.
Defined.

(** X3: identifier 5 was never handed out in the analysed trace. *)
Lemma X3_witness :
  getAnalysisResult (run init analysed_trace) 5 = (0, 0, false).
Proof.
  apply X3_unknown_dataset_reads_zero.
  - repeat constructor; vm_compute; discriminate.
  - vm_compute. intros [_ Hle]. by apply Hle.
Defined.

(** X4: Bob is refused on identifier 5. *)
Lemma X4_witness :
  call (from bob 9) (RequestGWASAnalysis 5) (run init analysed_trace)
    = inl (Revert "Not authorized").
Proof.
  apply X4_unknown_dataset_requests_refused.
  - repeat constructor; vm_compute; discriminate.
  - vm_compute. discriminate.
  - vm_compute. intros [_ Hle]. by apply Hle.
Defined.

(** X5: dataset 1 is flagged after the analysed trace, and the event is
    in its log. *)
Lemma X5_witness : ResultDecrypted 1 ∈ run_events init analysed_trace.
Proof. apply X5_flag_set_only_by_callback. vm_compute. reflexivity. Defined.

(** X6: the statistics of dataset 1 survive a second submission and a
    second callback attempt. *)
Lemma X6_witness :
  getAnalysisResult
    (run init (analysed_trace
               ++ [(from bob 0, SubmitEncryptedDataset 7 8);
                   (from relayer 0, PerformAnalysis 2 (abi_encode_uint32_array [1; 1]) [])])) 1
  = getAnalysisResult (run init analysed_trace) 1.
Proof.
  apply X6_analysis_is_final.
  - repeat constructor; vm_compute; discriminate.
  - vm_compute. reflexivity.
Defined.

(** X7: Bob's dataset after the analysed trace, analysed with genotype 3
    and phenotype 4. *)
Lemma X7_witness :
  getAnalysisResult
    (run (run init analysed_trace)
         [(from bob 0, SubmitEncryptedDataset 7 8);
          (from bob 3, RequestGWASAnalysis 2);
          (from relayer 0, PerformAnalysis 3 (abi_encode_uint32_array [3; 4]) [])]) 2
  = (7, 12, true).
Proof.
  destruct (X7_lifecycle analysed_trace (from bob 0) (from bob 3) (from relayer 0)
              7 8 (abi_encode_uint32_array [3; 4]) [] 3 4 [])
    as (_ & _ & _ & W & _).
  - vm_compute. discriminate.
  - reflexivity.
  - reflexivity.
  - vm_compute. reflexivity.
  - vm_compute. discriminate.
  - vm_compute. discriminate.
  - exact W.
Defined.

(** X8: the analysis request 1 of the requested trace is accepted by the
    reveal callback. *)
Lemma X8_witness :
  call (from relayer 0)
       (DecryptFinalResults 1 (abi_encode_uint32_array [7; 10]) [])
       (run init requested_trace)
  = inr (run init requested_trace, []).
Proof.
  destruct (X8_request_writes_one_entry (from alice 1) 1
              (run init [(from alice 0, SubmitEncryptedDataset 501 502)])
              (run init requested_trace) [AnalysisRequested 1])
    as (_ & _ & _ & _ & W).
  - discriminate.
  - vm_compute. reflexivity.
  - apply W; [reflexivity | vm_compute; eauto].
Defined.

(** X9: the completion of request 1 leaves Alice's dataset and the
    correlation entry alone. *)
Lemma X9_witness :
  dataset_at (run init (requested_trace ++ [completion])) 1
    = dataset_at (run init requested_trace) 1 ∧
  request_at (run init (requested_trace ++ [completion])) 1 = 1.
Proof.
  destruct (X9_callback_touches_one_record (from relayer 0) 1
              (abi_encode_uint32_array [7; 10]) [] (run init requested_trace)
              (run init (requested_trace ++ [completion])) [ResultDecrypted 1])
    as (_ & _ & _ & Wd & Wr & _).
  { vm_compute. reflexivity. }
  split; [apply Wd | rewrite Wr; vm_compute; reflexivity].
Defined.

(** X10 on three values. *)
Lemma X10_witness :
  abi_decode_uint32_array (abi_encode_uint32_array [7; 10; 4294967295])
  = Some [7; 10; 4294967295].
Proof.
  apply X10_abi_round_trip.
  - repeat constructor; vm_compute; discriminate.
  - vm_compute. reflexivity.
Defined.

(** X11: the encoding of the empty array is 64 bytes long and decodes,
    and a callback carrying it fails. *)
Lemma X11_witness :
  32 * (Z.of_nat (length ([] : list Z)) + 1)
    ≤ Z.of_nat (length (abi_encode_uint32_array [])) ∧
  ∃ e, call (from relayer 0) (PerformAnalysis 1 (abi_encode_uint32_array []) [])
            (run init requested_trace) = inl e.
Proof.
  destruct (X11_decoded_cleartext_is_bounded (abi_encode_uint32_array []) [])
    as (_ & W1 & W2).
  - vm_compute. reflexivity.
  - split; [exact W1|]. apply W2. vm_compute. reflexivity.
Defined.

End MoreLedgerExamples.

End LedgerExtras.

(* ===================================================================== *)
(** * Part VI: further properties of the client                           *)
(* ===================================================================== *)

Module ClientExtras.
Import Client ClientProofs.

Opaque upload_failed process_failed.

Section MoreClientFacts.
Context `{Runtime} `{!StandardSort}.

Ltac js_unfold :=
  unfold ethers_toUtf8String, JSON_parse_, lift, or_throw, throw, try_catch,
    try_finally, console_error, alert, setGwasDatasets, setIsRefreshing,
    setLoading, setUploading, setTransactionStatus, update, getData, setData,
    mbind, js_bind, mret, js_ret in *.

Ltac case_failed :=
  match goal with
  | |- context [upload_failed ?e ?w0] =>
      destruct (upload_failed_cases e w0) as [[? ->] | [? ->]]; simpl
  end.

(** The two ways into the [catch] block of an upload: with an error the
    operation made itself, and with what a rejected call was rejected
    with. In both the store is as the try block left it, and the block
    throws only if the value carries no message. *)
Ltac store_kept :=
  case_failed; unfold read; simpl; rewrite ?lookup_insert_ne by done; done.
Ltac caught_error :=
  split;
  [ store_kept
  | intros _; by rewrite (upload_failed_message (js_error _) _ _ eq_refl) ].
Ltac caught_rejection E :=
  split;
  [ store_kept
  | let Hm := fresh "Hm" in
    let Hm' := fresh "Hm" in
    intros Hm; destruct (Hm _ _ ltac:(rewrite E; eauto)) as [? Hm'];
    by rewrite (upload_failed_message _ _ _ Hm') ].

(** *** The listing in every case *)

Lemma loadDatasets_cases env w :
  loadDatasets env w =
  (inr tt,
   mkWorld (chain w) (console w ++ load_log env w) (alerts w)
           (default (gwasDatasets w) (listed env w))
           false false (uploading w) (transactionStatus w)).
Proof.
  unfold loadDatasets, load_log, listed, index_log, keys_of, index_value, decode.
  js_unfold. simpl.
  destruct (readOnlyContract env); simpl; [|by rewrite app_nil_r].
  destruct (isAvailable env) as [[|]|]; simpl; try done.
  unfold getData_fails. destruct (getData_error env _); simpl; [done|].
  change (read (with_isRefreshing true w) "gwas_keys") with (read w "gwas_keys").
  destruct (0 <? length (read w "gwas_keys"))%nat; simpl.
  - destruct (toUtf8String _) as [s|]; simpl.
    + destruct (JSON_parse s) as [v|]; simpl.
      * destruct (iterate v) as [items|]; simpl; [|done].
        rewrite load_loop_spec. reflexivity.
      * done.
    + done.
  - by rewrite app_nil_r.
Qed.

Lemma listed_chain env w1 w2 :
  chain w1 = chain w2 → listed env w1 = listed env w2.
Proof.
  intros E. unfold listed, read. rewrite E.
  destruct (readOnlyContract env); [|done].
  destruct (isAvailable env) as [[|]|]; try done.
  destruct (getData_fails env _); [done|].
  destruct (iterate _) as [items|]; simpl; [|done].
  by rewrite (surviving_chain env w1 w2 items E).
Qed.




(** *** Properties of the listing *)


(** X13. An index that parses to a value that cannot be walked (a number,
    a boolean, null, an object) fails the listing as a whole: the list
    shown is left as it was and the console receives one line,
    "Error loading datasets:". *)
Theorem X13_unwalkable_index_keeps_list env w :
  can_list env →
  iterate (keys_of (read w "gwas_keys")) = None →
  gwasDatasets (exec (loadDatasets env) w) = gwasDatasets w ∧
  console (exec (loadDatasets env) w) = console w ++ ["Error loading datasets:"%string].
Proof.
  intros (Hc & Ha & Hf) Hit. unfold exec. rewrite loadDatasets_cases. simpl.
  unfold listed, load_log. rewrite Hc, Ha, Hf, Hit. simpl. split; [done|].
  unfold index_log. unfold keys_of in Hit.
  destruct (index_value _); [done|]. done.
Qed.


(** X15. A listing can be repeated: a second [loadDatasets] right after
    the first, under the same conditions, shows the same list and leaves
    the same store. *)
Theorem X15_listing_is_repeatable env w :
  gwasDatasets (exec (loadDatasets env) (exec (loadDatasets env) w))
    = gwasDatasets (exec (loadDatasets env) w) ∧
  chain (exec (loadDatasets env) (exec (loadDatasets env) w)) = chain w.
Proof.
  unfold exec. rewrite !loadDatasets_cases. simpl. split; [|done].
  match goal with |- default _ (listed env ?x) = _ =>
    rewrite (listed_chain env x w) by done end.
  by destruct (listed env w).
Qed.


(** *** Properties of the upload *)

(** X17. Whatever happens, [uploadDataset] writes to no key of the store
    other than the index key and the key of the new record. And when
    every rejection the provider or the wallet answers with carries a
    string as its message, as an [Error] does, it returns without
    throwing. *)
Theorem X17_upload_writes_two_keys env w k :
  k ≠ "gwas_keys"%string → k ≠ ("gwas_" +:+ datasetId_of env)%string →
  read (exec (uploadDataset env) w) k = read w k ∧
  ((∀ j e, getData_error env j = Some e ∨ setData_error env j = Some e →
           carries_message e) →
   (uploadDataset env w).1 = inr tt).
Proof.
  intros Hk1 Hk2. unfold exec, uploadDataset.
  destruct (provider env); simpl; [|done]. js_unfold. simpl.
  destruct (btoa _) as [b64|]; simpl; [|caught_error].
  destruct (signerContract env); simpl; [|caught_error].
  destruct (setData_error env ("gwas_" +:+ datasetId_of env)) eqn:Ew1; simpl;
    [caught_rejection Ew1|].
  destruct (getData_error env "gwas_keys") eqn:Eg; simpl; [caught_rejection Eg|].
  destruct (0 <? length _)%nat; simpl.
  - destruct (toUtf8String _) as [s|]; simpl.
    + destruct (JSON_parse s) as [v|]; simpl.
      * destruct (array_push v _) as [err|v']; simpl; [caught_error|].
        destruct (setData_error env "gwas_keys") eqn:Ew2; simpl; [caught_rejection Ew2|].
        rewrite loadDatasets_cases. simpl. unfold read. simpl. by rewrite !lookup_insert_ne.
      * destruct (setData_error env "gwas_keys") eqn:Ew2; simpl; [caught_rejection Ew2|].
        rewrite loadDatasets_cases. simpl. unfold read. simpl. by rewrite !lookup_insert_ne.
    + destruct (setData_error env "gwas_keys") eqn:Ew2; simpl; [caught_rejection Ew2|].
      rewrite loadDatasets_cases. simpl. unfold read. simpl. by rewrite !lookup_insert_ne.
  - destruct (setData_error env "gwas_keys") eqn:Ew2; simpl; [caught_rejection Ew2|].
    rewrite loadDatasets_cases. simpl. unfold read. simpl. by rewrite !lookup_insert_ne.
Qed.

(** X18. The two writes of an upload are not atomic. When the record
    write is accepted and the index write is then rejected, the record
    stays stored under its key while the index is what it was, so no
    listing will show it; the list on screen is not refreshed, the status
    reads error with the rejection's message ("Transaction rejected by
    user" when the message says the user rejected the transaction), and
    the uploading flag is cleared. *)
Theorem X18_rejected_index_write_orphans_record env w b64 ks thrown e :
  provider env = true →
  btoa (JSON_stringify (newDataset_value (newDataset env))) = Some b64 →
  signerContract env = true →
  setData_error env ("gwas_" +:+ datasetId_of env) = None →
  getData_fails env "gwas_keys" = false →
  keys_of (read w "gwas_keys") = VArr ks →
  setData_error env "gwas_keys" = Some thrown →
  get_property thrown "message" = Some (VStr e) →
  let w' := exec (uploadDataset env) w in
  read w' ("gwas_" +:+ datasetId_of env)
    = toUtf8Bytes (JSON_stringify (datasetData_of env ("FHE-GWAS-" +:+ b64))) ∧
  read w' "gwas_keys" = read w "gwas_keys" ∧
  gwasDatasets w' = gwasDatasets w ∧
  uploading w' = false ∧
  transactionStatus w' =
    mkStatus true error
      (if includes e "user rejected transaction"
       then "Transaction rejected by user"%string
       else ("Upload failed: " +:+ (if String.eqb e "" then "Unknown error" else e))%string).
Proof.
  intros Hp Hb Hs Hw1 Hg%getData_fails_false Hk Hw2 Hmsg w'.
  unfold w', exec, uploadDataset.
  pose proof (record_key_not_index env) as Hne.
  rewrite Hp. js_unfold. simpl. rewrite Hb, Hs. simpl. rewrite Hw1, Hg. simpl.
  match goal with |- context [read ?x "gwas_keys"] =>
    assert (read x "gwas_keys" = read w "gwas_keys") as Er
      by (unfold read; simpl; by rewrite lookup_insert_ne) end.
  simpl in Er. rewrite Er. clear Er.
  unfold keys_of, index_value, decode in Hk.
  assert (∀ (m : gmap string bytes) v,
            default [] (<["gwas_" +:+ datasetId_of env := v]> m !! "gwas_keys"%string)
            = default [] (m !! "gwas_keys"%string)) as E1
    by (intros; by rewrite lookup_insert_ne).
  destruct (0 <? length (read w "gwas_keys"))%nat; simpl in *.
  - destruct (toUtf8String _) as [s|]; simpl in *.
    + destruct (JSON_parse s) as [v|]; simpl in *.
      * subst v. simpl. rewrite Hw2. simpl.
        rewrite (upload_failed_message _ _ _ Hmsg). unfold read. simpl.
        rewrite E1, lookup_insert_eq. done.
      * rewrite Hw2. simpl.
        rewrite (upload_failed_message _ _ _ Hmsg). unfold read. simpl.
        rewrite E1, lookup_insert_eq. done.
    + rewrite Hw2. simpl.
      rewrite (upload_failed_message _ _ _ Hmsg). unfold read. simpl.
      rewrite E1, lookup_insert_eq. done.
  - rewrite Hw2. simpl.
    rewrite (upload_failed_message _ _ _ Hmsg). unfold read. simpl.
    rewrite E1, lookup_insert_eq. done.
Qed.

(** X27. The [catch] block of an upload counts on a message. When the
    index write is rejected with a value that has none (a wallet error
    object with a code only, for instance), the block throws before it
    sets the error status: [uploadDataset] itself throws, the status on
    screen stays "Encrypting genomic data with FHE..." as pending, and
    the record written before is stored without an index entry. Only the
    uploading flag is cleared. *)
Theorem X27_rejection_without_message_escapes env w b64 ks thrown :
  provider env = true →
  btoa (JSON_stringify (newDataset_value (newDataset env))) = Some b64 →
  signerContract env = true →
  setData_error env ("gwas_" +:+ datasetId_of env) = None →
  getData_fails env "gwas_keys" = false →
  keys_of (read w "gwas_keys") = VArr ks →
  setData_error env "gwas_keys" = Some thrown →
  get_property thrown "message" = Some VUndefined →
  let w' := exec (uploadDataset env) w in
  (∃ err, (uploadDataset env w).1 = inl err) ∧
  transactionStatus w' = mkStatus true pending "Encrypting genomic data with FHE..." ∧
  uploading w' = false ∧
  gwasDatasets w' = gwasDatasets w ∧
  read w' ("gwas_" +:+ datasetId_of env)
    = toUtf8Bytes (JSON_stringify (datasetData_of env ("FHE-GWAS-" +:+ b64))) ∧
  read w' "gwas_keys" = read w "gwas_keys".
Proof.
  intros Hp Hb Hs Hw1 Hg%getData_fails_false Hk Hw2 Hmsg w'.
  unfold w', exec, uploadDataset.
  pose proof (record_key_not_index env) as Hne.
  rewrite Hp. js_unfold. simpl. rewrite Hb, Hs. simpl. rewrite Hw1, Hg. simpl.
  match goal with |- context [read ?x "gwas_keys"] =>
    assert (read x "gwas_keys" = read w "gwas_keys") as Er
      by (unfold read; simpl; by rewrite lookup_insert_ne) end.
  simpl in Er. rewrite Er. clear Er.
  unfold keys_of, index_value, decode in Hk.
  assert (∀ (m : gmap string bytes) v,
            default [] (<["gwas_" +:+ datasetId_of env := v]> m !! "gwas_keys"%string)
            = default [] (m !! "gwas_keys"%string)) as E1
    by (intros; by rewrite lookup_insert_ne).
  assert (∀ w0, ∃ err, upload_failed thrown w0 = (inl err, w0)) as Hthrows
    by (intros; by apply upload_failed_silent).
  destruct (0 <? length (read w "gwas_keys"))%nat; simpl in *.
  - destruct (toUtf8String _) as [s|]; simpl in *.
    + destruct (JSON_parse s) as [v|]; simpl in *.
      * subst v. simpl. rewrite Hw2. simpl.
        match goal with |- context [upload_failed thrown ?w0] =>
          destruct (Hthrows w0) as [err ->] end.
        simpl. unfold read. simpl. rewrite E1, lookup_insert_eq. eauto 10.
      * rewrite Hw2. simpl.
        match goal with |- context [upload_failed thrown ?w0] =>
          destruct (Hthrows w0) as [err ->] end.
        simpl. unfold read. simpl. rewrite E1, lookup_insert_eq. eauto 10.
    + rewrite Hw2. simpl.
      match goal with |- context [upload_failed thrown ?w0] =>
        destruct (Hthrows w0) as [err ->] end.
      simpl. unfold read. simpl. rewrite E1, lookup_insert_eq. eauto 10.
  - rewrite Hw2. simpl.
    match goal with |- context [upload_failed thrown ?w0] =>
      destruct (Hthrows w0) as [err ->] end.
    simpl. unfold read. simpl. rewrite E1, lookup_insert_eq. eauto 10.
Qed.

(** X19. An upload that goes through appends: the record is stored under
    the new key, and the index written back is the keys it held before,
    in their order, followed by the new identifier. No earlier key is
    dropped as long as the index was empty or parsed to an array. *)
Theorem X19_upload_appends_to_index env w b64 ks :
  can_upload env b64 →
  keys_of (read w "gwas_keys") = VArr ks →
  let w' := exec (uploadDataset env) w in
  tx_status (transactionStatus w') = success ∧
  uploading w' = false ∧
  read w' ("gwas_" +:+ datasetId_of env)
    = toUtf8Bytes (JSON_stringify (datasetData_of env ("FHE-GWAS-" +:+ b64))) ∧
  read w' "gwas_keys"
    = toUtf8Bytes (JSON_stringify (VArr (ks ++ [VStr (datasetId_of env)]))) ∧
  (reads_back (VArr (ks ++ [VStr (datasetId_of env)])) →
   keys_of (read w' "gwas_keys") = VArr (ks ++ [VStr (datasetId_of env)])).
Proof.
  intros Hu Hk w'.
  pose proof (record_key_not_index env) as Hne.
  pose proof (chain_after_upload env w b64 ks Hu Hk) as Hchain. fold w' in Hchain.
  pose proof (upload_spec env w b64 ks Hu Hk) as Hspec. fold w' in Hspec.
  assert (read w' "gwas_keys"
          = toUtf8Bytes (JSON_stringify (VArr (ks ++ [VStr (datasetId_of env)])))) as Hidx.
  { unfold read. rewrite Hchain. simpl. by rewrite lookup_insert_eq. }
  split; [|split; [|split; [|split]]].
  - rewrite Hspec. unfold exec. rewrite loadDatasets_cases. done.
  - by rewrite Hspec.
  - unfold read. rewrite Hchain. simpl.
    rewrite lookup_insert_ne by done. by rewrite lookup_insert_eq.
  - exact Hidx.
  - intros [Hl Hd]. unfold keys_of, index_value. rewrite Hidx.
    apply Nat.ltb_lt in Hl. by rewrite Hl, Hd.
Qed.

(** X20. When the index parses to something that is not an array, the
    upload fails after its first write: the record is stored, the index
    is left as it was, the list is not refreshed, and the status is the
    error of the failed [keys.push]: "Upload failed: keys.push is not a
    function" for a number, a boolean, a string or an object, and the
    error of reading a property of [null] when the index holds [null]. *)
Theorem X20_upload_fails_on_non_array_index env w b64 v :
  provider env = true →
  btoa (JSON_stringify (newDataset_value (newDataset env))) = Some b64 →
  signerContract env = true →
  setData_error env ("gwas_" +:+ datasetId_of env) = None →
  getData_fails env "gwas_keys" = false →
  index_value (read w "gwas_keys") = Some v →
  (∀ ks, v ≠ VArr ks) →
  let w' := exec (uploadDataset env) w in
  read w' ("gwas_" +:+ datasetId_of env)
    = toUtf8Bytes (JSON_stringify (datasetData_of env ("FHE-GWAS-" +:+ b64))) ∧
  read w' "gwas_keys" = read w "gwas_keys" ∧
  gwasDatasets w' = gwasDatasets w ∧
  transactionStatus w' =
    mkStatus true error
      match v with
      | VNull => "Upload failed: Cannot read properties of null (reading 'push')"
      | VUndefined => "Upload failed: Cannot read properties of undefined (reading 'push')"
      | _ => "Upload failed: keys.push is not a function"
      end.
Proof.
  intros Hp Hb Hs Hw1 Hg%getData_fails_false Hv Hna w'.
  unfold w', exec, uploadDataset.
  pose proof (record_key_not_index env) as Hne.
  rewrite Hp. js_unfold. simpl. rewrite Hb, Hs. simpl. rewrite Hw1, Hg. simpl.
  match goal with |- context [read ?x "gwas_keys"] =>
    assert (read x "gwas_keys" = read w "gwas_keys") as Er
      by (unfold read; simpl; by rewrite lookup_insert_ne) end.
  simpl in Er. rewrite Er. clear Er.
  unfold index_value, decode in Hv.
  assert (∀ (m : gmap string bytes) x,
            default [] (<["gwas_" +:+ datasetId_of env := x]> m !! "gwas_keys"%string)
            = default [] (m !! "gwas_keys"%string)) as E1
    by (intros; by rewrite lookup_insert_ne).
  destruct (0 <? length (read w "gwas_keys"))%nat; simpl in *.
  - destruct (toUtf8String _) as [s|]; simpl in *; [|done].
    destruct (JSON_parse s) as [v'|]; simpl in *; [|done].
    injection Hv as ->.
    destruct v; simpl;
      try (rewrite (upload_failed_message (js_error _) _ _ eq_refl);
           unfold read; simpl; rewrite E1, lookup_insert_eq; done).
    by destruct (Hna vs).
  - injection Hv as <-. by destruct (Hna []).
Qed.

(** *** Properties of [processDataset] *)

Lemma assoc_replace_other k x fields k' :
  String.eqb k' k = false →
  assoc k' (map (λ kv : string * value, if String.eqb k kv.1 then (kv.1, x) else kv) fields)
  = assoc k' fields.
Proof.
  intros Hne. induction fields as [|[k0 v0] fs IH]; simpl; [done|].
  destruct (String.eqb k k0) eqn:E0; simpl.
  - apply String.eqb_eq in E0 as <-. by rewrite Hne.
  - by destruct (String.eqb k' k0).
Qed.

Lemma assoc_replace_same k x fields :
  has_property k fields = true →
  assoc k (map (λ kv : string * value, if String.eqb k kv.1 then (kv.1, x) else kv) fields)
  = x.
Proof.
  induction fields as [|[k0 v0] fs IH]; simpl; [done|].
  destruct (String.eqb k k0) eqn:E0; simpl.
  - by rewrite E0.
  - rewrite E0. exact IH.
Qed.

Lemma assoc_append k x fields k' :
  has_property k fields = false →
  assoc k' (fields ++ [(k, x)]) = if String.eqb k' k then x else assoc k' fields.
Proof.
  induction fields as [|[k0 v0] fs IH]; simpl.
  { intros _. by destruct (String.eqb k' k). }
  intros [E0 Hh]%orb_false_iff.
  destruct (String.eqb k' k0) eqn:E1.
  - apply String.eqb_eq in E1 as ->. rewrite String.eqb_sym in E0. by rewrite E0.
  - by apply IH.
Qed.

Lemma assoc_set_property k x fields k' :
  assoc k' (set_property k x fields) =
  if String.eqb k' k then x else assoc k' fields.
Proof.
  unfold set_property. destruct (has_property k fields) eqn:Hh.
  - destruct (String.eqb k' k) eqn:E.
    + apply String.eqb_eq in E as ->. by apply assoc_replace_same.
    + by apply assoc_replace_other.
  - by apply assoc_append.
Qed.

(** X21. Processing a dataset that is not stored fails cleanly: nothing is
    written, the list on screen stays, and the status reads "Analysis
    failed: Dataset not found". *)
Theorem X21_process_missing_dataset env w datasetId :
  provider env = true → signerContract env = true →
  getData_fails env ("gwas_" +:+ ToString datasetId) = false →
  read w ("gwas_" +:+ ToString datasetId) = [] →
  let w' := exec (processDataset env datasetId) w in
  chain w' = chain w ∧ gwasDatasets w' = gwasDatasets w ∧
  transactionStatus w' = mkStatus true error "Analysis failed: Dataset not found".
Proof.
  intros Hp Hs Hg%getData_fails_false Hr w'. unfold w', exec, processDataset.
  rewrite Hp. js_unfold. simpl. rewrite Hs. simpl. rewrite Hg. simpl.
  change (read (with_transactionStatus _ w) ?k) with (read w k).
  rewrite Hr. simpl. by rewrite process_failed_error.
Qed.


(** X23. Processing rewrites the status and nothing else of the record.
    When the stored value of the dataset parses, the write is accepted and
    the rewritten record reads back as written, the status reports
    success, and what a listing then shows for the key has the data,
    timestamp, institution and study type that the stored value had, with
    status "processed". *)
Theorem X23_process_marks_processed env w datasetId v env' :
  provider env = true → signerContract env = true →
  getData_fails env ("gwas_" +:+ ToString datasetId) = false →
  setData_error env ("gwas_" +:+ ToString datasetId) = None →
  (0 < length (read w ("gwas_" +:+ ToString datasetId)))%nat →
  decode (read w ("gwas_" +:+ ToString datasetId)) = Some v →
  reads_back (VObj (set_property "status" (VStr "processed") (spread v))) →
  getData_fails env' ("gwas_" +:+ ToString datasetId) = false →
  let w' := exec (processDataset env datasetId) w in
  tx_status (transactionStatus w') = success ∧
  record_of env' w' datasetId =
    Some (mkGwasData datasetId
            (assoc "data" (spread v)) (assoc "timestamp" (spread v))
            (assoc "institution" (spread v)) (assoc "studyType" (spread v))
            (VStr "processed")).
Proof.
  intros Hp Hs Hg%getData_fails_false Hw Hl Hd [Hrl Hrd] Hg' w'.
  set (key := ("gwas_" +:+ ToString datasetId)%string) in *.
  set (updated := VObj (set_property "status" (VStr "processed") (spread v))) in *.
  assert (chain w' = <[key := toUtf8Bytes (JSON_stringify updated)]> (chain w)
          ∧ tx_status (transactionStatus w') = success) as [Hchain Hst].
  { unfold w', exec, processDataset. rewrite Hp. js_unfold. simpl.
    rewrite Hs. simpl. fold key. rewrite Hg. simpl.
    change (read (with_transactionStatus _ w) key) with (read w key).
    destruct (length (read w key) =? 0)%nat eqn:E0.
    { apply Nat.eqb_eq in E0. lia. }
    simpl. unfold decode in Hd.
    destruct (toUtf8String (read w key)) as [s|]; simpl in *; [|done].
    rewrite Hd. simpl. rewrite Hw. simpl.
    rewrite loadDatasets_cases. done. }
  split; [done|].
  unfold record_of. cbv zeta. fold key. rewrite Hg'.
  assert (read w' key = toUtf8Bytes (JSON_stringify updated)) as ->
    by (unfold read; rewrite Hchain; by rewrite lookup_insert_eq).
  apply Nat.ltb_lt in Hrl. rewrite Hrl, Hrd. unfold updated. simpl.
  by rewrite !assoc_set_property.
Qed.

End MoreClientFacts.

(** *** The search filter and the counters *)

Section MoreSearchFacts.
Context `{Casing}.

(** X24. The search filter assumes every listed record has a string as
    study type: one record whose study type is anything else (a stored
    record without the property, for instance) makes [filteredDatasets]
    throw, whatever the query. *)
Theorem X24_filter_throws_on_missing_study_type q l d :
  d ∈ l → (∀ s, studyType d ≠ VStr s) → filteredDatasets q l = None.
Proof.
  intros Hd Hns. unfold filteredDatasets.
  induction Hd as [d l | d d' l Hd IH]; simpl.
  - unfold matches_search. destruct (studyType d); try done. by destruct (Hns s).
  - destruct (matches_search q d') as [b|]; [|done]. by rewrite IH.
Qed.

Lemma includes_empty s : includes s "" = true.
Proof. unfold includes. by destruct s. Qed.

(** X25. With an empty search box (a query that lowers to the empty
    string) and records whose study types are strings, the filter throws
    nothing and keeps every record, in order. *)
Theorem X25_empty_query_keeps_everything q l :
  toLowerCase q = ""%string →
  Forall (λ d, ∃ s, studyType d = VStr s) l →
  filteredDatasets q l = Some l.
Proof.
  intros Hq Hl. unfold filteredDatasets.
  induction Hl as [|d l [s Hs] Hl IH]; simpl; [done|].
  unfold matches_search at 1. rewrite Hs. simpl. rewrite Hq, includes_empty.
  by rewrite IH.
Qed.

End MoreSearchFacts.

Lemma has_status_exclusive s1 s2 d :
  s1 ≠ s2 → has_status s1 d = true → has_status s2 d = false.
Proof.
  unfold has_status. destruct (status d); try done.
  intros Hne E1%String.eqb_eq. subst. by apply String.eqb_neq.
Qed.

(** X26. The three counters of the dashboard never count a record twice:
    together they count at most the records of the list, and exactly all
    of them when every status is one of "processed", "pending" and
    "error". *)
Theorem X26_counters_partition l :
  (processedCount l + pendingCount l + errorCount l ≤ length l)%nat ∧
  (Forall (λ d, status d = VStr "processed" ∨ status d = VStr "pending"
                ∨ status d = VStr "error") l →
   (processedCount l + pendingCount l + errorCount l = length l)%nat).
Proof.
  unfold processedCount, pendingCount, errorCount. split.
  - induction l as [|d l IH]; simpl; [done|].
    destruct (has_status "processed" d) eqn:E1.
    { rewrite (has_status_exclusive "processed" "pending" d) by done.
      rewrite (has_status_exclusive "processed" "error" d) by done. simpl. lia. }
    destruct (has_status "pending" d) eqn:E2.
    { rewrite (has_status_exclusive "pending" "error" d) by done. simpl. lia. }
    destruct (has_status "error" d); simpl; lia.
  - intros Hl. induction Hl as [|d l Hd Hl IH]; simpl; [done|].
    assert (∀ s, has_status s d = match status d with
                                   | VStr s' => String.eqb s' s
                                   | _ => false
                                   end) as Hs by done.
    rewrite !Hs. destruct Hd as [-> | [-> | ->]]; simpl; lia.
Qed.

(** *** The properties on concrete stores *)

Section MoreClientExamples.
Import MiniRuntime.
#[local] Existing Instance runtime.
#[local] Existing Instance runtime_sorts_by_the_standard.
#[local] Existing Instance ascii_casing.

(** X13: an index holding the number 5. *)
Lemma X13_witness :
  gwasDatasets (exec (loadDatasets lab) number_index) = [] ∧
  console (exec (loadDatasets lab) number_index) = ["Error loading datasets:"%string].
Proof.
  apply (X13_unwalkable_index_keeps_list lab number_index lab_can_list).
  vm_compute. reflexivity.
Defined.



(** X17: the lab's upload into the store with a corrupt index leaves the
    old record alone, and does not throw. *)
Lemma X17_witness :
  read (exec (uploadDataset lab) corrupt_index) "gwas_old" = read corrupt_index "gwas_old" ∧
  (uploadDataset lab corrupt_index).1 = inr tt.
Proof.
  destruct (X17_upload_writes_two_keys lab corrupt_index "gwas_old") as [W1 W2].
  - discriminate.
  - vm_compute. discriminate.
  - split; [exact W1|]. apply W2. intros j e [E | E]; discriminate E.
Defined.

(** X18: the wallet rejects the index write. *)
Lemma X18_witness :
  read (exec (uploadDataset lab_rejected) fresh_world) "gwas_keys" = [] ∧
  (0 < length (read (exec (uploadDataset lab_rejected) fresh_world)
                    ("gwas_" +:+ datasetId_of lab_rejected)))%nat ∧
  transactionStatus (exec (uploadDataset lab_rejected) fresh_world)
    = mkStatus true error "Transaction rejected by user".
Proof.
  destruct (X18_rejected_index_write_orphans_record lab_rejected fresh_world
              lab_payload [] (js_error "user rejected transaction")
              "user rejected transaction")
    as (W1 & W2 & _ & _ & W3); try reflexivity.
  split; [exact W2|]. split; [|exact W3].
  rewrite W1. apply Nat.ltb_lt. vm_compute. reflexivity.
Defined.

(** X27: the wallet rejects the index write with a code and no message. *)
Lemma X27_witness :
  (∃ err, (uploadDataset lab_refused fresh_world).1 = inl err) ∧
  tx_status (transactionStatus (exec (uploadDataset lab_refused) fresh_world)) = pending.
Proof.
  destruct (X27_rejection_without_message_escapes lab_refused fresh_world
              lab_payload [] (VObj [("code"%string, VNum 4001)]))
    as (W1 & W2 & _); try reflexivity.
  split; [exact W1|]. rewrite W2. reflexivity.
Defined.

(** X19: a second upload keeps the first key. *)
Lemma X19_witness :
  keys_of (read (exec (uploadDataset lab) (stored "gwas_keys" (VArr [VStr "a"]) fresh_world))
                "gwas_keys")
  = VArr [VStr "a"; VStr (datasetId_of lab)].
Proof.
  destruct (X19_upload_appends_to_index lab
              (stored "gwas_keys" (VArr [VStr "a"]) fresh_world) lab_payload [VStr "a"])
    as (_ & _ & _ & _ & W).
  - exact lab_can_upload.
  - vm_compute. reflexivity.
  - apply W. split; [apply Nat.ltb_lt|]; vm_compute; reflexivity.
Defined.

(** X20: an index holding [null]. *)
Lemma X20_witness :
  read (exec (uploadDataset lab) null_index) "gwas_keys" = read null_index "gwas_keys" ∧
  transactionStatus (exec (uploadDataset lab) null_index)
    = mkStatus true error "Upload failed: Cannot read properties of null (reading 'push')".
Proof.
  destruct (X20_upload_fails_on_non_array_index lab null_index lab_payload VNull)
    as (_ & W2 & _ & W3); try reflexivity; try done.
Defined.

(** X21: nothing is stored under key [z]. *)
Lemma X21_witness :
  transactionStatus (exec (processDataset lab (VStr "z")) damaged_store)
    = mkStatus true error "Analysis failed: Dataset not found".
Proof.
  apply (X21_process_missing_dataset lab damaged_store (VStr "z")); reflexivity.
Defined.


(** X23: processing the dataset the lab just uploaded. *)
Lemma X23_witness :
  option_map (λ d, (timestamp d, institution d, studyType d, status d))
    (record_of lab
       (exec (processDataset lab (VStr (datasetId_of lab)))
             (exec (uploadDataset lab) fresh_world))
       (VStr (datasetId_of lab)))
  = Some (VNum 1700000000, VStr "0xA11CE", VStr "Oncology", VStr "processed").
Proof.
  destruct (X23_process_marks_processed lab (exec (uploadDataset lab) fresh_world)
              (VStr (datasetId_of lab))
              (datasetData_of lab ("FHE-GWAS-" +:+ lab_payload)) lab)
    as [_ W];
    [ reflexivity | reflexivity | reflexivity | reflexivity
    | apply Nat.ltb_lt; vm_compute; reflexivity
    | vm_compute; reflexivity
    | split; [apply Nat.ltb_lt|]; vm_compute; reflexivity
    | reflexivity | ].
  rewrite W. vm_compute. reflexivity.
Defined.

(** X24: the listing of the store with an undated, untyped record cannot
    be filtered. *)
Lemma X24_witness :
  filteredDatasets "onc" (gwasDatasets (exec (loadDatasets lab) undated_store)) = None.
Proof.
  apply (X24_filter_throws_on_missing_study_type "onc" _
           (mkGwasData (VStr "a") VUndefined (VNum 1) VUndefined VUndefined (VStr "pending"))).
  - apply list_elem_of_In. vm_compute. auto.
  - discriminate.
Defined.

(** X25: the lab's upload, listed and filtered with an empty query. *)
Lemma X25_witness :
  filteredDatasets "" (gwasDatasets (exec (uploadDataset lab) fresh_world))
  = Some (gwasDatasets (exec (uploadDataset lab) fresh_world)).
Proof.
  apply X25_empty_query_keeps_everything; [reflexivity|].
  vm_compute. repeat constructor. eexists. reflexivity.
Defined.

(** X26 on the lab's upload: one record, pending. *)
Lemma X26_witness :
  (processedCount (gwasDatasets (exec (uploadDataset lab) fresh_world))
   + pendingCount (gwasDatasets (exec (uploadDataset lab) fresh_world))
   + errorCount (gwasDatasets (exec (uploadDataset lab) fresh_world))
   = length (gwasDatasets (exec (uploadDataset lab) fresh_world)))%nat.
Proof.
  apply X26_counters_partition.
  vm_compute. constructor; [right; left; reflexivity | constructor].
Defined.

End MoreClientExamples.

End ClientExtras.
